(** * Column profiling of analyze_excel.py

    A shallow embedding of [generate_fake_data] and [analyze_column]
    (src/analyze_excel.py) together with the part of Python, pandas, numpy
    and Faker that the two functions call, and the properties the
    specification states about them.

    Conventions.
    - A Python [str] is a [string] holding its UTF-8 encoding; substring
      search and comparison on the bytes agree with those on code points.
    - Python floats are binary64 numbers, computed with [SpecFloat].
    - The random sources (Faker, numpy.random) are state-passing functions
      on an abstract generator state, gathered in the record [Runtime]. *)

From Stdlib Require Import List String Ascii ZArith QArith Bool Lia Arith.
From Stdlib Require Import Floats.SpecFloat.
From Stdlib Require Import Numbers.DecimalString.
Import ListNotations.

Local Close Scope Q_scope.
Local Open Scope string_scope.
Local Open Scope nat_scope.


(* ================================================================= *)
(** ** Python strings *)

Module PyStr.

(** [needle in hay] *)
Fixpoint contains (needle hay : string) : bool :=
  String.prefix needle hay ||
  match hay with
  | EmptyString => false
  | String _ rest => contains needle rest
  end.

(** [str(n)] for an integer *)
Definition of_Z (z : Z) : string := NilEmpty.string_of_int (Z.to_int z).
Definition of_nat (n : nat) : string := of_Z (Z.of_nat n).

(** [s.replace("\n", ", ")] *)
Fixpoint replace_newline (s : string) : string :=
  match s with
  | EmptyString => EmptyString
  | String c rest =>
      if Ascii.eqb c "010"%char then ", " ++ replace_newline rest
      else String c (replace_newline rest)
  end.

Fixpoint rev (s : string) : string :=
  match s with
  | EmptyString => EmptyString
  | String c rest => rev rest ++ String c EmptyString
  end.

(** The characters [str.strip()] removes are those of [str.isspace]:
    U+0009..U+000D, U+001C..U+0020, U+0085, U+00A0, U+1680,
    U+2000..U+200A, U+2028, U+2029, U+202F, U+205F and U+3000. *)
Definition space1 (a : nat) : bool :=
  ((9 <=? a) && (a <=? 13)) || ((28 <=? a) && (a <=? 32)).

Definition space2 (a b : nat) : bool :=
  (a =? 194) && ((b =? 133) || (b =? 160)).

Definition space3 (a b c : nat) : bool :=
  ((a =? 225) && (b =? 154) && (c =? 128)) ||
  ((a =? 226) && (b =? 128) &&
     (((128 <=? c) && (c <=? 138)) || (c =? 168) || (c =? 169) || (c =? 175))) ||
  ((a =? 226) && (b =? 129) && (c =? 159)) ||
  ((a =? 227) && (b =? 128) && (c =? 128)).

(** One white-space character taken from the front of [s]. *)
Definition drop_space (s : string) : option string :=
  match s with
  | EmptyString => None
  | String a t =>
      if space1 (nat_of_ascii a) then Some t
      else
        match t with
        | EmptyString => None
        | String b u =>
            if space2 (nat_of_ascii a) (nat_of_ascii b) then Some u
            else
              match u with
              | EmptyString => None
              | String c v =>
                  if space3 (nat_of_ascii a) (nat_of_ascii b) (nat_of_ascii c)
                  then Some v else None
              end
        end
  end.

(** The same on the reversed string, where the bytes of a character
    come last byte first. *)
Definition drop_space_rev (s : string) : option string :=
  match s with
  | EmptyString => None
  | String c t =>
      if space1 (nat_of_ascii c) then Some t
      else
        match t with
        | EmptyString => None
        | String b u =>
            if space2 (nat_of_ascii b) (nat_of_ascii c) then Some u
            else
              match u with
              | EmptyString => None
              | String a v =>
                  if space3 (nat_of_ascii a) (nat_of_ascii b) (nat_of_ascii c)
                  then Some v else None
              end
        end
  end.

Fixpoint strip_with (drop : string -> option string) (fuel : nat) (s : string) : string :=
  match fuel with
  | O => s
  | S fuel' =>
      match drop s with
      | Some t => strip_with drop fuel' t
      | None => s
      end
  end.

Definition lstrip (s : string) : string := strip_with drop_space (String.length s) s.
Definition rstrip (s : string) : string :=
  rev (strip_with drop_space_rev (String.length s) (rev s)).

(** [s.strip()] *)
Definition strip (s : string) : string := rstrip (lstrip s).

End PyStr.

(* ================================================================= *)
(** ** Python floats (IEEE 754 binary64) *)

Module PyFloat.

Definition prec : Z := 53.
Definition emax : Z := 1024.

(** [float(n)], exact for |n| < 2^53. *)
Definition of_int (n : Z) : spec_float := binary_normalize prec emax n 0 false.

(** [a / b] on two integers below 2^53: the correctly rounded quotient. *)
Definition truediv (a b : Z) : spec_float := SFdiv prec emax (of_int a) (of_int b).

(** [x * n] with an integer [n]. *)
Definition mul_int (x : spec_float) (n : Z) : spec_float := SFmul prec emax x (of_int n).

(** Neither nan nor an infinity. *)
Definition is_finite (x : spec_float) : bool :=
  match x with
  | S754_zero _ | S754_finite _ _ _ => true
  | _ => false
  end.

(** [int(x)]: truncation toward zero. Python raises on nan and on an
    infinity, which are given 0 here: the operand of this program is a
    count divided by a positive length and scaled, which is finite (see
    [scaled_fraction_finite]). *)
Definition to_int (x : spec_float) : Z :=
  match x with
  | S754_finite s m e =>
      let a := if (0 <=? e)%Z then (Zpos m * 2 ^ e)%Z else (Zpos m / 2 ^ (- e))%Z in
      if s then (- a)%Z else a
  | _ => 0%Z
  end.

(** The integer nearest to the exact value of [x], ties to the even one:
    what the ['f'] presentation with precision 0 prints. *)
Definition round_half_even (x : spec_float) : Z :=
  match x with
  | S754_finite s m e =>
      let a :=
        if (0 <=? e)%Z then (Zpos m * 2 ^ e)%Z
        else
          let d := (2 ^ (- e))%Z in
          let q := (Zpos m / d)%Z in
          let r := (Zpos m mod d)%Z in
          match (2 * r ?= d)%Z with
          | Lt => q
          | Gt => (q + 1)%Z
          | Eq => if Z.even q then q else (q + 1)%Z
          end in
      if s then (- a)%Z else a
  | _ => 0%Z
  end.

(** [f"{x:.0%}"]: multiply by 100, print with no decimals, add the sign. *)
Definition format_percent (x : spec_float) : string :=
  PyStr.of_Z (round_half_even (mul_int x 100)) ++ "%".

End PyFloat.

(* ================================================================= *)
(** ** Cell values and pandas Series *)

(** What a cell of a Series read from a sheet holds. [VNone], [VNaN] and
    [VNaT] are the missing values ([pd.isna]); [VDatetime] stands for a
    [datetime] or [pd.Timestamp], by its instant. *)
Inductive value : Type :=
| VNone
| VNaN
| VNaT
| VBool (b : bool)
| VInt (n : Z)
| VFloat (x : Q)
| VDatetime (t : Z)
| VStr (s : string).

Inductive Dtype : Type :=
| Int64
| Float64
| BoolDtype
| Datetime64
| StringDtype
| Object.

Record Series : Type := mkSeries { dtype : Dtype; values : list value }.

Module Pandas.

(** [pd.isna(val)] *)
Definition isna (v : value) : bool :=
  match v with
  | VNone | VNaN | VNaT => true
  | _ => false
  end.

(** Which values a column of a given dtype can hold. *)
Definition fits (d : Dtype) (v : value) : bool :=
  match d, v with
  | Int64, VInt _ => true
  | Float64, (VFloat _ | VNaN) => true
  | BoolDtype, VBool _ => true
  | Datetime64, (VDatetime _ | VNaT) => true
  | StringDtype, (VStr _ | VNaN) => true
  | Object, _ => true
  | _, _ => false
  end.

Definition well_formed (s : Series) : bool := forallb (fits (dtype s)) (values s).

(** [series.dropna()]: the dtype is kept. *)
Definition dropna (s : Series) : Series :=
  mkSeries (dtype s) (filter (fun v => negb (isna v)) (values s)).

(** The number a value stands for: [True == 1 == 1.0] in Python. *)
Definition number (v : value) : option Q :=
  match v with
  | VBool b => Some (inject_Z (if b then 1 else 0))
  | VInt n => Some (inject_Z n)
  | VFloat x => Some x
  | _ => None
  end.

(** [a == b] on values that are not missing. *)
Definition py_eqb (a b : value) : bool :=
  match a, b with
  | VStr s, VStr t => String.eqb s t
  | VDatetime x, VDatetime y => Z.eqb x y
  | _, _ =>
      match number a, number b with
      | Some p, Some q => Qeq_bool p q
      | _, _ => false
      end
  end.

(** [series.unique()]: the values in order of first appearance,
    [seen] being those already taken. *)
Fixpoint unique_from (seen : list value) (vs : list value) : list value :=
  match vs with
  | [] => []
  | v :: rest =>
      if existsb (py_eqb v) seen then unique_from seen rest
      else v :: unique_from (v :: seen) rest
  end.

Definition unique (s : Series) : list value := unique_from [] (values s).

(** [pd.api.types.is_string_dtype(dtype)]: given the dtype alone, pandas
    answers yes for [object] whatever the column holds. *)
Definition is_string_dtype (d : Dtype) : bool :=
  match d with
  | Object | StringDtype => true
  | _ => false
  end.

(** [pd.api.types.is_numeric_dtype(dtype)] *)
Definition is_numeric_dtype (d : Dtype) : bool :=
  match d with
  | Int64 | Float64 | BoolDtype => true
  | _ => false
  end.

(** [pd.api.types.is_datetime64_any_dtype(dtype)] *)
Definition is_datetime64_any_dtype (d : Dtype) : bool :=
  match d with
  | Datetime64 => true
  | _ => false
  end.

Definition is_number (v : value) : bool :=
  match v with
  | VInt _ | VFloat _ | VNaN | VNone => true
  | _ => false
  end.

(** The dtype [infer_objects] gives an [object] column: a soft
    conversion that reads the Python type of each element and never
    parses text, so a column that holds a [str] stays [object]. *)
Definition inferred_dtype (vs : list value) : Dtype :=
  match vs with
  | [] => Object
  | _ =>
      if forallb (fun v => match v with VBool _ => true | _ => false end) vs then BoolDtype
      else if forallb (fun v => match v with VInt _ => true | _ => false end) vs then Int64
      else if forallb is_number vs
              && existsb (fun v => match v with VInt _ | VFloat _ | VNaN => true | _ => false end) vs
           then Float64
      else if forallb (fun v => match v with VDatetime _ | VNaT => true | _ => false end) vs
              && existsb (fun v => match v with VDatetime _ => true | _ => false end) vs
           then Datetime64
      else Object
  end.

(** [series.infer_objects()] *)
Definition infer_objects (s : Series) : Series :=
  match dtype s with
  | Object => mkSeries (inferred_dtype (values s)) (values s)
  | _ => s
  end.

(** [a < b], as [min] and [max] use it. *)
Definition py_ltb (a b : value) : bool :=
  match a, b with
  | VStr s, VStr t => String.ltb s t
  | VDatetime x, VDatetime y => Z.ltb x y
  | _, _ =>
      match number a, number b with
      | Some p, Some q => negb (Qle_bool q p)
      | _, _ => false
      end
  end.

(** [series.min()] and [series.max()]; nan on an empty column. *)
Definition min (s : Series) : value :=
  match values s with
  | [] => VNaN
  | v :: rest => fold_left (fun m x => if py_ltb x m then x else m) rest v
  end.

Definition max (s : Series) : value :=
  match values s with
  | [] => VNaN
  | v :: rest => fold_left (fun m x => if py_ltb m x then x else m) rest v
  end.

End Pandas.

(* ================================================================= *)
(** ** The libraries the script draws on *)

(** Python's text functions that are taken as given, and the random
    sources: each call of a generator reads the state [rng] and leaves a
    new one. [fake_*] are the methods of [Faker("sv_SE")];
    [np_uniform_text lo hi] is [str(round(np.random.uniform(lo, hi), 2))]. *)
Record Runtime : Type := mkRuntime {
  lower : string -> string;            (* str.lower *)
  repr_float : Q -> string;            (* str(x) for a float *)
  str_datetime : Z -> string;          (* str(t) for a datetime *)
  rng : Type;
  fake_name : rng -> string * rng;
  fake_company : rng -> string * rng;
  fake_email : rng -> string * rng;
  fake_phone_number : rng -> string * rng;
  fake_address : rng -> string * rng;
  fake_ssn : rng -> string * rng;
  fake_random_number : nat -> bool -> rng -> Z * rng;
  fake_date : rng -> string * rng;
  fake_word : rng -> string * rng;
  np_uniform_text : value -> value -> rng -> string * rng
}.

(* ================================================================= *)
(** ** analyze_excel.py *)

Definition SAMPLE_SIZE : nat := 50.
Definition CATEGORICAL_THRESHOLD : nat := 15.
Definition EXAMPLE_COUNT : nat := 5.

(** The keys of [type_counts]. *)
Inductive Kind : Type := Tom | Tal | Datum | Text.

Definition label (k : Kind) : string :=
  match k with
  | Tom => "Tom"
  | Tal => "Tal"
  | Datum => "Datum"
  | Text => "Text"
  end.

Definition Kind_eqb (a b : Kind) : bool :=
  match a, b with
  | Tom, Tom | Tal, Tal | Datum, Datum | Text, Text => true
  | _, _ => false
  end.

(** A [collections.Counter]: keys in order of insertion. *)
Definition Counter : Type := list (Kind * nat).

(** [c[k] += 1] *)
Fixpoint incr (k : Kind) (c : Counter) : Counter :=
  match c with
  | [] => [(k, 1)]
  | (k', n) :: rest =>
      if Kind_eqb k k' then (k', S n) :: rest else (k', n) :: incr k rest
  end.

(** [c.get(k, 0)] *)
Fixpoint get (k : Kind) (c : Counter) : nat :=
  match c with
  | [] => 0
  | (k', n) :: rest => if Kind_eqb k k' then n else get k rest
  end.

Definition marker : value := VStr "(tom)".

Section Program.

Variable R : Runtime.

(** A computation that draws on the random sources. *)
Definition Gen (A : Type) : Type := rng R -> A * rng R.

Definition ret {A : Type} (a : A) : Gen A := fun r => (a, r).

Definition bind {A B : Type} (g : Gen A) (f : A -> Gen B) : Gen B :=
  fun r => let (a, r') := g r in f a r'.

Definition fmap {A B : Type} (f : A -> B) (g : Gen A) : Gen B :=
  bind g (fun a => ret (f a)).

(** [for _ in range(n): examples.append(g)] on an empty list. *)
Fixpoint repeat_gen {A : Type} (n : nat) (g : Gen A) : Gen (list A) :=
  match n with
  | O => ret []
  | S n' => bind g (fun a => bind (repeat_gen n' g) (fun rest => ret (a :: rest)))
  end.

(** [str(val)] *)
Definition str (v : value) : string :=
  match v with
  | VNone => "None"
  | VNaN => "nan"
  | VNaT => "NaT"
  | VBool b => if b then "True" else "False"
  | VInt n => PyStr.of_Z n
  | VFloat x => repr_float R x
  | VDatetime t => str_datetime R t
  | VStr s => s
  end.

(** [series.astype(str)] *)
Definition astype_str (s : Series) : Series :=
  mkSeries Object (map (fun v => VStr (str v)) (values s)).

(** The rule of [generate_fake_data] that the lowered column name
    selects, first match first; [None] when no token occurs in it. *)
Definition name_rule (col_name_lower : string) : option (Gen string) :=
  if PyStr.contains "namn" col_name_lower || PyStr.contains "kund" col_name_lower
  then Some (fake_name R)
  else if PyStr.contains "företag" col_name_lower
  then Some (fake_company R)
  else if PyStr.contains "epost" col_name_lower || PyStr.contains "email" col_name_lower
  then Some (fake_email R)
  else if PyStr.contains "telefon" col_name_lower || PyStr.contains "mobil" col_name_lower
  then Some (fake_phone_number R)
  else if PyStr.contains "adress" col_name_lower
  then Some (fmap PyStr.replace_newline (fake_address R))
  else if PyStr.contains "personnummer" col_name_lower
  then Some (fake_ssn R)
  else if PyStr.contains "nummer" col_name_lower || PyStr.contains "id" col_name_lower
  then Some (fmap PyStr.of_Z (fake_random_number R 6 true))
  else if PyStr.contains "datum" col_name_lower
  then Some (fake_date R)
  else None.

Definition generate_fake_data (series : Series) (col_name : string) : Gen string :=
  let series := astype_str (Pandas.dropna series) in
  let col_name_lower := lower R col_name in
  match name_rule col_name_lower with
  | Some g => g
  | None =>
      if Pandas.is_numeric_dtype (dtype (Pandas.infer_objects series))
      then np_uniform_text R (Pandas.min series) (Pandas.max series)
      else if Pandas.is_datetime64_any_dtype (dtype (Pandas.infer_objects series))
      then fake_date R
      else fake_word R
  end.

(** [pd.isna(val) or str(val).strip() == ""] *)
Definition is_empty (val : value) : bool :=
  Pandas.isna val || String.eqb (PyStr.strip (str val)) "".

(** [isinstance(val, (int, float, np.number))]: a [bool] is an [int]. *)
Definition is_number_instance (val : value) : bool :=
  match val with
  | VBool _ | VInt _ | VFloat _ | VNaN => true
  | _ => false
  end.

(** [isinstance(val, (datetime, pd.Timestamp))] *)
Definition is_datetime_instance (val : value) : bool :=
  match val with
  | VDatetime _ | VNaT => true
  | _ => false
  end.

(** The branch of the loop over the rows that a value takes. *)
Definition kind_of (val : value) : Kind :=
  if is_empty val then Tom
  else if is_number_instance val then Tal
  else if is_datetime_instance val then Datum
  else Text.

(** [type_counts] after the loop. *)
Definition count_types (vals : list value) : Counter :=
  fold_left (fun c val => incr (kind_of val) c) vals [].

(** [f"{t} ({c/total_rows:.0%})"] joined with [", "]. *)
Definition summary_of (type_counts : Counter) (total_rows : nat) : string :=
  String.concat ", "
    (map (fun tc : Kind * nat =>
            label (fst tc) ++ " (" ++
            PyFloat.format_percent (PyFloat.truediv (Z.of_nat (snd tc)) (Z.of_nat total_rows)) ++ ")")
         type_counts).

(** [int(type_counts.get("Tom", 0) / total_rows * EXAMPLE_COUNT)] *)
Definition empty_slots (n_tom total_rows : nat) : nat :=
  Z.to_nat (PyFloat.to_int
              (PyFloat.mul_int (PyFloat.truediv (Z.of_nat n_tom) (Z.of_nat total_rows))
                               (Z.of_nat EXAMPLE_COUNT))).

Definition unique_values (series : Series) : list value :=
  Pandas.unique (Pandas.dropna series).

Definition is_categorical (series : Series) : bool :=
  (List.length (unique_values series) <=? CATEGORICAL_THRESHOLD) &&
  (0 <? List.length (unique_values series)) &&
  Pandas.is_string_dtype (dtype (Pandas.dropna series)).

Definition categorical_note (n : nat) : string :=
  "Kategorisk (" ++ PyStr.of_nat n ++ " unika värden)".

Definition variable_note : string := "Varierande/Känslig data".

(** [examples] and [analysis_note] before the empty slots are put in. *)
Definition base_examples (series : Series) (col_name : string) : Gen (list value * string) :=
  if is_categorical series
  then ret (firstn EXAMPLE_COUNT (unique_values series),
            categorical_note (List.length (unique_values series)))
  else
    fmap (fun ex => (map VStr ex, variable_note))
         (repeat_gen EXAMPLE_COUNT (generate_fake_data (Pandas.dropna series) col_name)).

(** Returns [(type_summary, examples, analysis_note)]. *)
Definition analyze_column (series : Series) (col_name : string)
  : Gen (string * list value * string) :=
  let total_rows := List.length (values series) in
  if total_rows =? 0 then ret ("Tom kolumn", [], "Ingen data")
  else
    let type_counts := count_types (values series) in
    let type_summary := summary_of type_counts total_rows in
    bind (base_examples series col_name) (fun en =>
      let '(examples, analysis_note) := en in
      let num_empty_to_add := empty_slots (get Tom type_counts) total_rows in
      let examples := skipn num_empty_to_add examples in
      let examples := (examples ++ repeat marker num_empty_to_add)%list in
      ret (type_summary, examples, analysis_note)).

End Program.

Arguments ret {R A} a r.
Arguments bind {R A B} g f r.
Arguments fmap {R A B} f g r.
Arguments repeat_gen {R A} n g r.

(** The three components of a result. *)
Definition summary_part (res : string * list value * string) : string := fst (fst res).
Definition examples_part (res : string * list value * string) : list value := snd (fst res).
Definition note_part (res : string * list value * string) : string := snd res.

(* ================================================================= *)
(** ** A runtime for worked examples *)

(** Lower-casing of the ASCII letters and of the capital letters of the
    Latin-1 supplement (U+00C0..U+00DE but U+00D7), which covers Swedish.
    It agrees with [str.lower] on names written with these letters and is
    used at such names only; beyond them [str.lower] changes more (U+212A
    becomes "k"), which is why the properties take [lower R] as given. *)
Fixpoint lower_latin1 (s : string) : string :=
  match s with
  | EmptyString => EmptyString
  | String a rest =>
      let x := nat_of_ascii a in
      if (65 <=? x) && (x <=? 90) then String (ascii_of_nat (x + 32)) (lower_latin1 rest)
      else if x =? 195 then
        match rest with
        | String b rest' =>
            let y := nat_of_ascii b in
            if (128 <=? y) && (y <=? 158) && negb (y =? 151)
            then String a (String (ascii_of_nat (y + 32)) (lower_latin1 rest'))
            else String a (String b (lower_latin1 rest'))
        | EmptyString => String a EmptyString
        end
      else String a (lower_latin1 rest)
  end.

(** Generators that count their calls: the state is the number of draws
    made so far, and the n-th personal number has serial n. Floats and
    instants are not used by the examples and print as a fixed text. *)
Definition counting_runtime : Runtime :=
  {| lower := lower_latin1;
     repr_float := fun _ => "0.0";
     str_datetime := fun _ => "1970-01-01 00:00:00";
     rng := nat;
     fake_name := fun n => ("Anna Andersson", S n);
     fake_company := fun n => ("Andersson AB", S n);
     fake_email := fun n => ("anna@example.org", S n);
     fake_phone_number := fun n => ("08-123 456", S n);
     fake_address := fun n => ("Storgatan 1
123 45 Lund", S n);
     fake_ssn := fun n => ("800101-" ++ PyStr.of_nat (1000 + n), S n);
     fake_random_number := fun _ _ n => ((100000 + Z.of_nat n)%Z, S n);
     fake_date := fun n => ("2001-02-03", S n);
     fake_word := fun n => ("ord" ++ PyStr.of_nat n, S n);
     np_uniform_text := fun _ _ n => ("0.0", S n) |}.

(* ================================================================= *)
(** ** Sample columns *)

(** A column of 50 rows, 10 of them missing. *)
Definition fifty_rows_ten_empty : Series :=
  mkSeries Float64 (repeat VNaN 10 ++ repeat (VFloat 1) 40)%list.

(** Three texts and a blank one. *)
Definition blank_last : Series :=
  mkSeries Object [VStr "a"; VStr "b"; VStr "c"; VStr " "].

(** A number and a text, as a sheet column that mixes them is read. *)
Definition number_and_text : Series := mkSeries Object [VInt 1; VStr "a"].

(** The sample of four city names, one of them twice. *)
Definition cities : Series :=
  mkSeries Object [VStr "Stockholm"; VStr "Malmö"; VStr "Stockholm"; VStr "Göteborg"].

(** Ten distinct personal numbers held as text. *)
Definition personnummer_texts : Series :=
  mkSeries Object
    [VStr "8001011231"; VStr "8102022345"; VStr "8203033456"; VStr "8304044567";
     VStr "8405055678"; VStr "8506066789"; VStr "8607077890"; VStr "8708088901";
     VStr "8809099012"; VStr "8910100123"].

(** The same numbers held as integers. *)
Definition personnummer_numbers : Series :=
  mkSeries Int64
    [VInt 8001011231; VInt 8102022345; VInt 8203033456; VInt 8304044567;
     VInt 8405055678; VInt 8506066789; VInt 8607077890; VInt 8708088901;
     VInt 8809099012; VInt 8910100123].

(** Ages between 18 and 65, as integers. *)
Definition ages : Series := mkSeries Int64 [VInt 18; VInt 30; VInt 65].

(** Two rows of blank text. *)
Definition blank_rows : Series := mkSeries Object [VStr " "; VStr ""].

(** Two texts with a blank one between them. *)
Definition text_with_blank : Series := mkSeries Object [VStr "a"; VStr " "; VStr "b"].

(** A number, a text, a missing value, a boolean and an instant. *)
Definition five_kinds : Series :=
  mkSeries Object [VInt 1; VStr "a"; VNone; VBool true; VDatetime 3].

(* ================================================================= *)
(** ** Notions of the specification *)

(** The distinct non-empty values, in the specification's sense of
    empty (missing, or blank once printed and trimmed), in order of first
    occurrence. To be compared with [unique_values], which is what the
    script computes. *)
Definition distinct_non_empty (R : Runtime) (s : Series) : list value :=
  Pandas.unique_from []
    (filter (fun v => negb (Kind_eqb (kind_of R v) Tom)) (values s)).

(** The number of rows of a kind. *)
Definition rows_of_kind (R : Runtime) (k : Kind) (vals : list value) : nat :=
  List.length (filter (fun v => Kind_eqb (kind_of R v) k) vals).

(** Sum of the counts held by a counter. *)
Definition total (c : Counter) : nat := fold_right (fun tc acc => snd tc + acc) 0 c.

(** The exact fraction [c / total_rows] of each entry, and their sum. *)
Definition fraction (total_rows : nat) (tc : Kind * nat) : Q :=
  (inject_Z (Z.of_nat (snd tc)) / inject_Z (Z.of_nat total_rows))%Q.

Definition fraction_sum (c : Counter) (total_rows : nat) : Q :=
  fold_right (fun tc acc => (fraction total_rows tc + acc)%Q) 0%Q c.

(** No value of the sample is a blank text. *)
Definition no_blank_text (R : Runtime) (s : Series) : Prop :=
  forall v, In v (values s) -> kind_of R v = Tom -> Pandas.isna v = true.

(** [c / n * m] in binary64. *)
Definition scaled_fraction (c n m : nat) : spec_float :=
  PyFloat.mul_int (PyFloat.truediv (Z.of_nat c) (Z.of_nat n)) (Z.of_nat m).

(** On every count [0..n]: the two products the script forms are finite
    and [empty_slots] agrees with the exact floor. *)
Definition slots_exact (n : nat) : bool :=
  forallb (fun c =>
             PyFloat.is_finite (scaled_fraction c n EXAMPLE_COUNT) &&
             PyFloat.is_finite (scaled_fraction c n 100) &&
             (empty_slots c n =? (c * EXAMPLE_COUNT) / n))
          (seq 0 (S n)).

(* ================================================================= *)
(** ** get_format_info *)

(** What [get_format_info] reads of an openpyxl cell: [cell.font.bold],
    [cell.alignment.wrapText] and [cell.number_format]. A flag is [None],
    [True] or [False]; an empty cell of a read-only sheet has no font, no
    alignment and no number format. *)
Module Openpyxl.

Record Font : Type := mkFont { bold : option bool }.

Record Alignment : Type := mkAlignment { wrapText : option bool }.

Record Cell : Type := mkCell {
  font : option Font;
  alignment : option Alignment;
  number_format : option string
}.

End Openpyxl.

(** The double quote, as a text. *)
Definition dquote : string := String (ascii_of_nat 34) EmptyString.

(** The line break, as a text. *)
Definition newline : string := String (ascii_of_nat 10) EmptyString.

(** [cell.font and cell.font.bold] as a condition *)
Definition is_bold (cell : Openpyxl.Cell) : bool :=
  match Openpyxl.font cell with
  | Some f => match Openpyxl.bold f with Some true => true | _ => false end
  | None => false
  end.

(** [cell.alignment and cell.alignment.wrapText] as a condition *)
Definition is_wrapped (cell : Openpyxl.Cell) : bool :=
  match Openpyxl.alignment cell with
  | Some a => match Openpyxl.wrapText a with Some true => true | _ => false end
  | None => false
  end.

(** The number format when [num_format and num_format not in ["General", None]]. *)
Definition shown_format (cell : Openpyxl.Cell) : option string :=
  match Openpyxl.number_format cell with
  | Some num_format =>
      if String.eqb num_format "" || String.eqb num_format "General" then None
      else Some num_format
  | None => None
  end.

(** [cell] is [None] or a cell object, which is always true as a condition. *)
Definition get_format_info (cell : option Openpyxl.Cell) : string :=
  match cell with
  | None => "N/A"
  | Some cell =>
      let info : list string := [] in
      let info := if is_bold cell then (info ++ ["Fet"])%list else info in
      let info := if is_wrapped cell then (info ++ ["Radbruten"])%list else info in
      let info :=
        match shown_format cell with
        | Some num_format =>
            (info ++ [("Format: " ++ dquote ++ num_format ++ dquote)%string])%list
        | None => info
        end in
      match info with
      | [] => "Standard"
      | _ => String.concat ", " info
      end
  end.

(* ================================================================= *)
(** ** The loop of main over the columns of a sheet *)

(** A DataFrame as [main] uses it: the number of rows and the columns in
    order, each with its label. A label is what the header cell held: a
    text, or a number, a boolean or an instant when the header is not
    text. Labels are not repeated, as [read_excel] makes them, so that
    [df[col]] is the column paired with [col]. *)
Module Frame.

Record DataFrame : Type := mkDataFrame {
  n_rows : nat;
  columns : list (value * Series)
}.

(** Every column has one value per row. *)
Definition well_formed (df : DataFrame) : Prop :=
  Forall (fun cs => List.length (values (snd cs)) = n_rows df) (columns df).

(** [df.empty]: no row or no column. *)
Definition empty (df : DataFrame) : bool :=
  (n_rows df =? 0) || (List.length (columns df) =? 0).

(** [series.head(n)] *)
Definition head (n : nat) (s : Series) : Series :=
  mkSeries (dtype s) (firstn n (values s)).

End Frame.

(** What the calls of [main] can raise. *)
Inductive raised : Type := AttributeError.

(** The label is a [str]. *)
Definition is_text (label : value) : bool :=
  match label with
  | VStr _ => true
  | _ => false
  end.

Section Report.

Variable R : Runtime.

(** A computation that draws on the random sources and may raise. *)
Definition GenE (A : Type) : Type := rng R -> (raised + A) * rng R.

Definition retE {A : Type} (a : A) : GenE A := fun r => (inr a, r).

Definition raise {A : Type} (e : raised) : GenE A := fun r => (inl e, r).

Definition bindE {A B : Type} (g : GenE A) (f : A -> GenE B) : GenE B :=
  fun r =>
    match g r with
    | (inl e, r') => (inl e, r')
    | (inr a, r') => f a r'
    end.

(** A computation that does not raise. *)
Definition lift {A : Type} (g : Gen R A) : GenE A :=
  fun r => let (a, r') := g r in (inr a, r').

(** [for _ in range(n): examples.append(g)], left at the first raise. *)
Fixpoint repeat_genE {A : Type} (n : nat) (g : GenE A) : GenE (list A) :=
  match n with
  | O => retE []
  | S n' => bindE g (fun a => bindE (repeat_genE n' g) (fun rest => retE (a :: rest)))
  end.

(** [generate_fake_data] with the column label as [main] passes it: the
    sample is turned to text, then [col_name.lower()] raises
    AttributeError for a label that is not a [str], before anything is
    drawn. *)
Definition generate_fake_data_label (series : Series) (label : value) : GenE string :=
  match label with
  | VStr col_name => lift (generate_fake_data R series col_name)
  | _ => raise AttributeError
  end.

(** [analyze_column] with the column label as [main] passes it: the
    label is looked at by [generate_fake_data] only. *)
Definition analyze_column_label (series : Series) (label : value)
  : GenE (string * list value * string) :=
  let total_rows := List.length (values series) in
  if total_rows =? 0 then retE ("Tom kolumn", [], "Ingen data")
  else
    let type_counts := count_types R (values series) in
    let type_summary := summary_of type_counts total_rows in
    bindE
      (if is_categorical series
       then retE (firstn EXAMPLE_COUNT (unique_values series),
                  categorical_note (List.length (unique_values series)))
       else
         bindE (repeat_genE EXAMPLE_COUNT
                  (generate_fake_data_label (Pandas.dropna series) label))
               (fun ex => retE (map VStr ex, variable_note)))
      (fun en =>
         let '(examples, analysis_note) := en in
         let num_empty_to_add := empty_slots (get Tom type_counts) total_rows in
         let examples := skipn num_empty_to_add examples in
         let examples := (examples ++ repeat marker num_empty_to_add)%list in
         retE (type_summary, examples, analysis_note)).

(** The loop over the columns: what each call returns, in order, left at
    the first raise, which nothing in [main] catches. *)
Fixpoint for_each {A B : Type} (f : A -> GenE B) (l : list A) : GenE (list B) :=
  match l with
  | [] => retE []
  | a :: rest => bindE (f a) (fun b => bindE (for_each f rest) (fun bs => retE (b :: bs)))
  end.

(** What [main] computes for a sheet that was read (lines 174-183):
    [None] when [df.empty], where the sheet is reported empty and skipped;
    otherwise the result of [analyze_column] on the first [SAMPLE_SIZE]
    rows of each column, in column order, or what one of the calls
    raised. *)
Definition main_columns (df : Frame.DataFrame)
  : GenE (option (list (string * list value * string))) :=
  if Frame.empty df then retE None
  else
    bindE
      (for_each (fun cs : value * Series =>
                   analyze_column_label (Frame.head SAMPLE_SIZE (snd cs)) (fst cs))
                (Frame.columns df))
      (fun results => retE (Some results)).

End Report.

Arguments retE {R A} a r.
Arguments raise {R A} e r.
Arguments bindE {R A B} g f r.
Arguments lift {R A} g r.
Arguments repeat_genE {R A} n g r.
Arguments for_each {R A B} f l r.

(* ================================================================= *)
(** ** Further notions *)

(** The kinds of a list in order of first occurrence, [seen] being those
    already met. *)
Fixpoint first_kinds (seen : list Kind) (ks : list Kind) : list Kind :=
  match ks with
  | [] => []
  | k :: rest =>
      if existsb (Kind_eqb k) seen then first_kinds seen rest
      else k :: first_kinds (seen ++ [k]) rest
  end.

(** The whole percent that the summary prints for [c] rows out of [n]. *)
Definition printed_percent (c n : nat) : Z :=
  PyFloat.round_half_even (scaled_fraction c n 100).

(** On every count [0..n]: the printed percent is within 0..100 and at
    most one half away from the exact percentage. *)
Definition percent_exact (n : nat) : bool :=
  forallb (fun c =>
             let p := printed_percent c n in
             (0 <=? p)%Z && (p <=? 100)%Z &&
             (Z.abs (200 * Z.of_nat c - 2 * p * Z.of_nat n) <=? Z.of_nat n)%Z)
          (seq 0 (S n)).

(** One-byte white space only. *)
Definition ascii_blank (s : string) : Prop :=
  forall c, In c (list_ascii_of_string s) -> PyStr.space1 (nat_of_ascii c) = true.

(** A visible ASCII character: U+0021..U+007E. *)
Definition visible (c : ascii) : Prop := 33 <= nat_of_ascii c <= 126.

(** Sample inputs. *)
Definition other_ages : Series := mkSeries Int64 [VInt 40; VInt 41; VInt 42].

Definition all_missing : Series := mkSeries Float64 [VNaN; VNaN; VNaN].

Definition one_empty_in_six : Series :=
  mkSeries Float64 [VNaN; VFloat 1; VFloat 2; VFloat 3; VFloat 4; VFloat 5].

Definition two_columns : Frame.DataFrame :=
  Frame.mkDataFrame 4 [(VStr "Stad", cities); (VStr "Namn", blank_last)].

(** A sheet whose second header cell holds the number 2024. *)
Definition year_header : Frame.DataFrame :=
  Frame.mkDataFrame 3 [(VStr "Ålder", ages); (VInt 2024, other_ages)].

Definition bold_percent_cell : Openpyxl.Cell :=
  Openpyxl.mkCell (Some (Openpyxl.mkFont (Some true)))
                  (Some (Openpyxl.mkAlignment None))
                  (Some "0.00%").

Definition plain_cell : Openpyxl.Cell :=
  Openpyxl.mkCell (Some (Openpyxl.mkFont (Some false))) None (Some "General").

(* ================================================================= *)
(** ** Counters *)

Lemma Kind_eqb_eq (a b : Kind) : Kind_eqb a b = true <-> a = b.
Proof. destruct a, b; simpl; split; intro H; congruence. Qed.

Lemma Kind_eqb_refl (a : Kind) : Kind_eqb a a = true.
Proof. now destruct a. Qed.

Lemma Kind_eqb_neq (a b : Kind) : a <> b -> Kind_eqb a b = false.
Proof.
  intro H. destruct (Kind_eqb a b) eqn:E; [|reflexivity].
  apply Kind_eqb_eq in E. contradiction.
Qed.

Lemma total_incr (k : Kind) (c : Counter) : total (incr k c) = S (total c).
Proof.
  induction c as [|[k' n] c IH]; simpl; [reflexivity|].
  destruct (Kind_eqb k k'); simpl; [reflexivity|].
  rewrite IH. lia.
Qed.

Lemma get_incr_same (k : Kind) (c : Counter) : get k (incr k c) = S (get k c).
Proof.
  induction c as [|[k' n] c IH]; simpl.
  - now rewrite Kind_eqb_refl.
  - destruct (Kind_eqb k k') eqn:E; simpl; rewrite E; auto.
Qed.

Lemma get_incr_other (k k' : Kind) (c : Counter) :
  k' <> k -> get k' (incr k c) = get k' c.
Proof.
  intro Hne. induction c as [|[k0 n] c IH]; simpl.
  - now rewrite (Kind_eqb_neq _ _ Hne).
  - destruct (Kind_eqb k k0) eqn:E; simpl.
    + apply Kind_eqb_eq in E. subst k0. now rewrite (Kind_eqb_neq _ _ Hne).
    + now rewrite IH.
Qed.

Lemma keys_incr (k : Kind) (c : Counter) :
  forall k', In k' (map fst (incr k c)) <-> k' = k \/ In k' (map fst c).
Proof.
  induction c as [|[k0 n] c IH]; intro k'; simpl.
  - intuition.
  - destruct (Kind_eqb k k0) eqn:E; simpl.
    + apply Kind_eqb_eq in E. subst. intuition.
    + rewrite IH. intuition.
Qed.

Lemma NoDup_keys_incr (k : Kind) (c : Counter) :
  NoDup (map fst c) -> NoDup (map fst (incr k c)).
Proof.
  induction c as [|[k0 n] c IH]; simpl; intro H.
  - constructor; [intros []|constructor].
  - inversion H as [|? ? Hnin Hnd]; subst.
    destruct (Kind_eqb k k0) eqn:E; simpl.
    + constructor; assumption.
    + constructor; [|auto].
      rewrite keys_incr. intros [->|Hin]; [|contradiction].
      rewrite Kind_eqb_refl in E. discriminate.
Qed.

(** Every entry of a counter holds what [get] reads, when keys are not
    repeated. *)
Lemma In_get (c : Counter) (k : Kind) (n : nat) :
  NoDup (map fst c) -> In (k, n) c -> get k c = n.
Proof.
  induction c as [|[k0 n0] c IH]; simpl; intros Hnd Hin; [contradiction|].
  inversion Hnd as [|? ? Hnin Hnd']; subst.
  destruct Hin as [Heq|Hin].
  - inversion Heq; subst. now rewrite Kind_eqb_refl.
  - destruct (Kind_eqb k k0) eqn:E.
    + apply Kind_eqb_eq in E. subst.
      exfalso. apply Hnin. change k0 with (fst (k0, n)). now apply in_map.
    + auto.
Qed.

Lemma positive_incr (k : Kind) (c : Counter) :
  Forall (fun tc => 0 < snd tc) c -> Forall (fun tc => 0 < snd tc) (incr k c).
Proof.
  induction c as [|[k0 n] c IH]; simpl; intro H.
  - repeat constructor.
  - inversion H; subst. destruct (Kind_eqb k k0); constructor; simpl in *; auto; lia.
Qed.

(* ================================================================= *)
(** ** The loop over the rows *)

Section Counting.

Variable R : Runtime.

Let step (c : Counter) (val : value) : Counter := incr (kind_of R val) c.

Lemma fold_total (vals : list value) (c : Counter) :
  total (fold_left step vals c) = total c + List.length vals.
Proof.
  revert c. induction vals as [|v vals IH]; intro c; simpl; [lia|].
  rewrite IH. unfold step. rewrite total_incr. lia.
Qed.

Lemma fold_get (k : Kind) (vals : list value) (c : Counter) :
  get k (fold_left step vals c) = get k c + rows_of_kind R k vals.
Proof.
  revert c. induction vals as [|v vals IH]; intro c; simpl.
  - unfold rows_of_kind. simpl. lia.
  - rewrite IH. unfold step, rows_of_kind. simpl.
    destruct (Kind_eqb (kind_of R v) k) eqn:E.
    + apply Kind_eqb_eq in E. rewrite E, get_incr_same. simpl. lia.
    + rewrite get_incr_other; [lia|].
      intro Heq. rewrite Heq, Kind_eqb_refl in E. discriminate.
Qed.

Lemma fold_NoDup (vals : list value) (c : Counter) :
  NoDup (map fst c) -> NoDup (map fst (fold_left step vals c)).
Proof.
  revert c. induction vals as [|v vals IH]; intros c H; simpl; [assumption|].
  apply IH. apply NoDup_keys_incr. assumption.
Qed.

Lemma fold_positive (vals : list value) (c : Counter) :
  Forall (fun tc => 0 < snd tc) c ->
  Forall (fun tc => 0 < snd tc) (fold_left step vals c).
Proof.
  revert c. induction vals as [|v vals IH]; intros c H; simpl; [assumption|].
  apply IH. apply positive_incr. assumption.
Qed.

Lemma count_types_total (vals : list value) :
  total (count_types R vals) = List.length vals.
Proof. unfold count_types. apply (fold_total vals []). Qed.

Lemma count_types_get (k : Kind) (vals : list value) :
  get k (count_types R vals) = rows_of_kind R k vals.
Proof. unfold count_types. apply (fold_get k vals []). Qed.

Lemma count_types_NoDup (vals : list value) :
  NoDup (map fst (count_types R vals)).
Proof. apply fold_NoDup. constructor. Qed.

Lemma count_types_positive (vals : list value) :
  Forall (fun tc => 0 < snd tc) (count_types R vals).
Proof. apply fold_positive. constructor. Qed.

Lemma count_types_entry (vals : list value) (k : Kind) (n : nat) :
  In (k, n) (count_types R vals) -> n = rows_of_kind R k vals /\ 0 < n.
Proof.
  intro Hin. split.
  - rewrite <- count_types_get. symmetry.
    apply In_get; [apply count_types_NoDup | assumption].
  - pose proof (count_types_positive vals) as HF.
    rewrite Forall_forall in HF. apply (HF _ Hin).
Qed.

Lemma rows_of_kind_le (k : Kind) (vals : list value) :
  rows_of_kind R k vals <= List.length vals.
Proof. unfold rows_of_kind. apply filter_length_le. Qed.

End Counting.

(* ================================================================= *)
(** ** The number of empty slots *)

(** Checked on every count of every length up to [SAMPLE_SIZE]: the
    binary64 computation gives the exact floor. *)
Lemma slots_exact_up_to_cap : forallb slots_exact (seq 1 SAMPLE_SIZE) = true.
Proof. vm_compute. reflexivity. Qed.

Lemma slots_exact_at (c n : nat) :
  0 < n -> n <= SAMPLE_SIZE -> c <= n ->
  PyFloat.is_finite (scaled_fraction c n EXAMPLE_COUNT) = true /\
  PyFloat.is_finite (scaled_fraction c n 100) = true /\
  empty_slots c n = (c * EXAMPLE_COUNT) / n.
Proof.
  intros Hpos Hcap Hc.
  pose proof slots_exact_up_to_cap as H.
  rewrite forallb_forall in H.
  assert (Hn : In n (seq 1 SAMPLE_SIZE)) by (apply in_seq; lia).
  specialize (H n Hn). unfold slots_exact in H.
  rewrite forallb_forall in H.
  assert (Hin : In c (seq 0 (S n))) by (apply in_seq; lia).
  specialize (H c Hin).
  rewrite !andb_true_iff, Nat.eqb_eq in H. tauto.
Qed.

(** Within the cap, [int(...)] and the percent format get a finite
    number: neither raises nor prints nan. *)
Lemma scaled_fraction_finite (c n : nat) :
  0 < n -> n <= SAMPLE_SIZE -> c <= n ->
  PyFloat.is_finite (scaled_fraction c n EXAMPLE_COUNT) = true /\
  PyFloat.is_finite (scaled_fraction c n 100) = true.
Proof. intros Hpos Hcap Hc. destruct (slots_exact_at c n Hpos Hcap Hc). tauto. Qed.

Lemma empty_slots_floor (c n : nat) :
  0 < n -> n <= SAMPLE_SIZE -> c <= n ->
  empty_slots c n = (c * EXAMPLE_COUNT) / n.
Proof. intros Hpos Hcap Hc. now destruct (slots_exact_at c n Hpos Hcap Hc) as (_ & _ & H). Qed.

Lemma empty_slots_le (c n : nat) :
  0 < n -> n <= SAMPLE_SIZE -> c <= n -> empty_slots c n <= EXAMPLE_COUNT.
Proof.
  intros Hpos Hcap Hc. rewrite empty_slots_floor by assumption.
  apply Nat.Div0.div_le_upper_bound. unfold EXAMPLE_COUNT. nia.
Qed.

Lemma empty_slots_all (n : nat) :
  0 < n -> n <= SAMPLE_SIZE -> empty_slots n n = EXAMPLE_COUNT.
Proof.
  intros Hpos Hcap. rewrite empty_slots_floor by lia.
  rewrite Nat.mul_comm. apply Nat.div_mul. lia.
Qed.

Lemma empty_slots_none (n : nat) :
  0 < n -> n <= SAMPLE_SIZE -> empty_slots 0 n = 0.
Proof.
  intros Hpos Hcap. rewrite empty_slots_floor by lia.
  simpl. apply Nat.Div0.div_0_l.
Qed.

(* ================================================================= *)
(** ** Generators *)

Section Generators.

Variable R : Runtime.

Lemma repeat_gen_length (A : Type) (g : Gen R A) (n : nat) (r : rng R) :
  List.length (fst (repeat_gen n g r)) = n.
Proof.
  revert r. induction n as [|n IH]; intro r; simpl; [reflexivity|].
  unfold bind. destruct (g r) as [a r1].
  specialize (IH r1). destruct (repeat_gen n g r1) as [rest r2].
  simpl in *. now rewrite IH.
Qed.

(** Every element of [repeat_gen n g] is what [g] returned at some state. *)
Lemma repeat_gen_outputs (A : Type) (g : Gen R A) (n : nat) (r : rng R) :
  Forall (fun a => exists r', a = fst (g r')) (fst (repeat_gen n g r)).
Proof.
  revert r. induction n as [|n IH]; intro r; simpl; [constructor|].
  unfold bind. destruct (g r) as [a r1] eqn:E.
  specialize (IH r1). destruct (repeat_gen n g r1) as [rest r2].
  simpl in *. constructor; [|assumption].
  exists r. now rewrite E.
Qed.

(** The content branches of [generate_fake_data] see a column of text,
    whose dtype [infer_objects] leaves alone. *)
Lemma inferred_dtype_text (vals : list value) :
  Pandas.inferred_dtype (map (fun v => VStr (str R v)) vals) = Object.
Proof. destruct vals as [|v vals]; reflexivity. Qed.

Lemma astype_str_infer (s : Series) :
  dtype (Pandas.infer_objects (astype_str R s)) = Object.
Proof. unfold Pandas.infer_objects, astype_str. simpl. apply inferred_dtype_text. Qed.

(** With no token in the column name, the result is [fake.word()]
    whatever the sample holds: the numeric and the date branch are
    never taken. *)
Lemma generate_fake_data_no_token (s : Series) (col_name : string) :
  name_rule R (lower R col_name) = None ->
  generate_fake_data R s col_name = fake_word R.
Proof.
  intro H. unfold generate_fake_data. rewrite H, astype_str_infer. reflexivity.
Qed.

Lemma generate_fake_data_token (s : Series) (col_name : string) (g : Gen R string) :
  name_rule R (lower R col_name) = Some g ->
  generate_fake_data R s col_name = g.
Proof. intro H. unfold generate_fake_data. now rewrite H. Qed.

(** The result of [generate_fake_data] does not depend on the sample. *)
Lemma generate_fake_data_sample_free (s s' : Series) (col_name : string) :
  generate_fake_data R s col_name = generate_fake_data R s' col_name.
Proof.
  unfold generate_fake_data.
  destruct (name_rule R (lower R col_name)); [reflexivity|].
  now rewrite !astype_str_infer.
Qed.

End Generators.

(* ================================================================= *)
(** ** Distinct values *)

Lemma py_eqb_text (v : value) (b : string) :
  Pandas.py_eqb v (VStr b) = true -> v = VStr b.
Proof.
  destruct v; simpl; try discriminate.
  intro H. apply String.eqb_eq in H. now subst.
Qed.


Lemma unique_from_incl (vs seen : list value) :
  forall v, In v (Pandas.unique_from seen vs) -> In v vs.
Proof.
  revert seen. induction vs as [|x vs IH]; intros seen v H; [assumption|].
  simpl in H. destruct (existsb (Pandas.py_eqb x) seen).
  - right. eapply IH; eassumption.
  - destruct H as [->|H]; [now left|]. right. eapply IH; eassumption.
Qed.

Lemma unique_from_length (vs seen : list value) :
  List.length (Pandas.unique_from seen vs) <= List.length vs.
Proof.
  revert seen. induction vs as [|x vs IH]; intro seen; simpl; [lia|].
  destruct (existsb (Pandas.py_eqb x) seen); simpl.
  - specialize (IH seen). lia.
  - specialize (IH (x :: seen)). lia.
Qed.

Lemma unique_values_incl (s : Series) :
  forall v, In v (unique_values s) -> In v (values s) /\ Pandas.isna v = false.
Proof.
  intros v H. unfold unique_values, Pandas.unique, Pandas.dropna in H. simpl in H.
  apply unique_from_incl in H. apply filter_In in H. destruct H as [H1 H2].
  split; [assumption|]. now apply negb_true_iff in H2.
Qed.

(** Without blank text, dropping the missing values and dropping the
    empty ones is the same. *)
Lemma unique_values_distinct_non_empty (R : Runtime) (s : Series) :
  no_blank_text R s -> unique_values s = distinct_non_empty R s.
Proof.
  intro Hnb. unfold unique_values, distinct_non_empty, Pandas.unique, Pandas.dropna.
  simpl. f_equal. apply filter_ext_in. intros v Hin. f_equal.
  destruct (Kind_eqb (kind_of R v) Tom) eqn:E.
  - apply Kind_eqb_eq in E. now apply Hnb.
  - unfold kind_of, is_empty in E.
    destruct (Pandas.isna v); [simpl in E; discriminate | reflexivity].
Qed.

(* ================================================================= *)
(** ** The shape of a result *)

Section Shape.

Variable R : Runtime.

Lemma base_examples_categorical (s : Series) (col_name : string) (r : rng R) :
  is_categorical s = true ->
  base_examples R s col_name r =
    ((firstn EXAMPLE_COUNT (unique_values s),
      categorical_note (List.length (unique_values s))), r).
Proof. intro H. unfold base_examples. now rewrite H. Qed.

Lemma base_examples_variable (s : Series) (col_name : string) (r : rng R) :
  is_categorical s = false ->
  base_examples R s col_name r =
    ((map VStr (fst (repeat_gen EXAMPLE_COUNT
                       (generate_fake_data R (Pandas.dropna s) col_name) r)),
      variable_note),
     snd (repeat_gen EXAMPLE_COUNT
            (generate_fake_data R (Pandas.dropna s) col_name) r)).
Proof.
  intro H. unfold base_examples. rewrite H. unfold fmap, bind, ret.
  now destruct (repeat_gen EXAMPLE_COUNT _ r).
Qed.

Lemma base_examples_length (s : Series) (col_name : string) (r : rng R) :
  List.length (fst (fst (base_examples R s col_name r))) <= EXAMPLE_COUNT.
Proof.
  destruct (is_categorical s) eqn:E.
  - rewrite base_examples_categorical by assumption. cbn [fst].
    apply firstn_le_length.
  - rewrite base_examples_variable by assumption. cbn [fst].
    rewrite length_map, repeat_gen_length. constructor.
Qed.

(** The result on a sample with at least one row. *)
Lemma analyze_column_rows (s : Series) (col_name : string) (r : rng R) :
  values s <> [] ->
  analyze_column R s col_name r =
    let b := base_examples R s col_name r in
    let k := empty_slots (rows_of_kind R Tom (values s)) (List.length (values s)) in
    ((summary_of (count_types R (values s)) (List.length (values s)),
      (skipn k (fst (fst b)) ++ repeat marker k)%list,
      snd (fst b)),
     snd b).
Proof.
  intro Hne. unfold analyze_column.
  destruct (values s) as [|v vals] eqn:Ev; [contradiction|].
  change (List.length (v :: vals) =? 0) with false. cbv iota.
  unfold bind, ret. rewrite <- Ev.
  destruct (base_examples R s col_name r) as [[ex note] r'].
  rewrite count_types_get. reflexivity.
Qed.

Lemma analysis_note_rows (s : Series) (col_name : string) (r : rng R) :
  values s <> [] ->
  note_part (fst (analyze_column R s col_name r)) =
    if is_categorical s then categorical_note (List.length (unique_values s))
    else variable_note.
Proof.
  intro Hne. rewrite analyze_column_rows by assumption. cbv zeta.
  unfold note_part. simpl.
  destruct (is_categorical s) eqn:E.
  - now rewrite base_examples_categorical.
  - now rewrite base_examples_variable.
Qed.

End Shape.

Lemma is_categorical_iff (s : Series) :
  is_categorical s = true <->
  0 < List.length (unique_values s) /\
  List.length (unique_values s) <= CATEGORICAL_THRESHOLD /\
  Pandas.is_string_dtype (dtype s) = true.
Proof.
  unfold is_categorical. simpl dtype.
  rewrite !andb_true_iff, Nat.leb_le, Nat.ltb_lt. tauto.
Qed.

(** A column all of whose rows are missing has no distinct value. *)
Lemma all_missing_not_categorical (s : Series) :
  (forall v, In v (values s) -> Pandas.isna v = true) -> is_categorical s = false.
Proof.
  intro H. unfold is_categorical.
  assert (E : unique_values s = []).
  { unfold unique_values, Pandas.unique, Pandas.dropna. simpl.
    replace (filter (fun v => negb (Pandas.isna v)) (values s)) with (@nil value);
      [reflexivity|].
    symmetry. induction (values s) as [|v vals IH]; [reflexivity|].
    simpl. rewrite (H v (or_introl eq_refl)). simpl.
    apply IH. intros w Hw. apply H. now right. }
  rewrite E. reflexivity.
Qed.

(** A column of a dtype that is not textual holds no text. *)
Lemma non_text_dtype_values (s : Series) :
  Pandas.well_formed s = true ->
  Pandas.is_string_dtype (dtype s) = false ->
  forall t, ~ In (VStr t) (values s).
Proof.
  intros Hwf Hd t Hin. unfold Pandas.well_formed in Hwf.
  rewrite forallb_forall in Hwf. specialize (Hwf _ Hin).
  destruct (dtype s); simpl in *; discriminate.
Qed.

(* ================================================================= *)
(** ** Type proportions *)

Lemma get_positive_key (k : Kind) (c : Counter) :
  0 < get k c -> In k (map fst c).
Proof.
  induction c as [|[k0 n] c IH]; simpl; intro H; [lia|].
  destruct (Kind_eqb k k0) eqn:E.
  - apply Kind_eqb_eq in E. now left.
  - right. auto.
Qed.

Lemma fraction_sum_total (c : Counter) (n : nat) :
  (fraction_sum c n == inject_Z (Z.of_nat (total c)) / inject_Z (Z.of_nat n))%Q.
Proof.
  induction c as [|[k m] c IH]; simpl.
  - unfold Qdiv. ring.
  - rewrite IH. unfold fraction. simpl snd.
    rewrite Nat2Z.inj_add, inject_Z_plus. unfold Qdiv. ring.
Qed.

Lemma rows_of_kind_partition (R : Runtime) (vals : list value) :
  rows_of_kind R Tom vals + rows_of_kind R Tal vals +
  rows_of_kind R Datum vals + rows_of_kind R Text vals = List.length vals.
Proof.
  unfold rows_of_kind. induction vals as [|v vals IH]; [reflexivity|].
  simpl. destruct (kind_of R v); simpl; lia.
Qed.

(** The chain of tests of the loop, by cases on the three tests. *)
Ltac kind_cases R v :=
  unfold kind_of;
  destruct (is_empty R v), (is_number_instance v), (is_datetime_instance v);
  intuition congruence.

(** C9: on the sample with zero rows [analyze_column] returns the
    sentinel ["Tom kolumn"] summary, which holds no proportion, an empty
    example list and the note ["Ingen data"]; nothing is counted and the
    random sources are left as they were, so no example was synthesized
    and nothing was raised. *)
Theorem zero_rows_sentinel (R : Runtime) (d : Dtype) (col_name : string) (r : rng R) :
  analyze_column R (mkSeries d []) col_name r = (("Tom kolumn", [], "Ingen data"), r)
  /\ count_types R (values (mkSeries d [])) = [].
Proof. split; reflexivity. Qed.


(* ================================================================= *)
(** ** Empty slots *)

(** C3: on a sample with at least one row, with [t] rows of kind Tom
    out of [n], the script takes [k = int(t / n * EXAMPLE_COUNT)], which
    for a sample within the cap [SAMPLE_SIZE] is the floor of the empty
    proportion times [EXAMPLE_COUNT]; it drops the first [k] of the
    selected or generated examples and appends [k] markers. If
    [k >= EXAMPLE_COUNT] the list is all markers; and a column of 50 rows
    with 10 empty ones that is not categorical yields the second to fifth
    generated values followed by one marker, in the last slot. *)
Theorem empty_slot_substitution (R : Runtime) (s : Series) (col_name : string) (r : rng R) :
  values s <> [] ->
  let n := List.length (values s) in
  let t := rows_of_kind R Tom (values s) in
  let k := empty_slots t n in
  let base := fst (fst (base_examples R s col_name r)) in
  let examples := examples_part (fst (analyze_column R s col_name r)) in
  get Tom (count_types R (values s)) = t /\
  (n <= SAMPLE_SIZE -> k = (t * EXAMPLE_COUNT) / n) /\
  examples = (skipn k base ++ repeat marker k)%list /\
  (EXAMPLE_COUNT <= k -> examples = repeat marker k) /\
  (n = 50 -> t = 10 -> is_categorical s = false ->
   exists g1 g2 g3 g4 g5,
     fst (repeat_gen EXAMPLE_COUNT (generate_fake_data R (Pandas.dropna s) col_name) r)
       = [g1; g2; g3; g4; g5] /\
     examples = [VStr g2; VStr g3; VStr g4; VStr g5; marker]).
Proof.
  intros Hne n t k base examples.
  assert (Hex : examples = (skipn k base ++ repeat marker k)%list).
  { unfold examples. rewrite analyze_column_rows by assumption. reflexivity. }
  split; [apply count_types_get|].
  split.
  { intro Hcap. apply empty_slots_floor; [| assumption | apply rows_of_kind_le].
    unfold n. destruct (values s); [contradiction | simpl; lia]. }
  split; [exact Hex|].
  split.
  { intro Hk. rewrite Hex. rewrite skipn_all2; [reflexivity|].
    pose proof (base_examples_length R s col_name r) as Hlen. fold base in Hlen. lia. }
  intros Hn Ht Hcat.
  assert (Hk : k = 1) by (unfold k; rewrite Hn, Ht; vm_compute; reflexivity).
  pose proof (repeat_gen_length R string (generate_fake_data R (Pandas.dropna s) col_name)
                EXAMPLE_COUNT r) as Hlen.
  assert (Hbase : base = map VStr (fst (repeat_gen EXAMPLE_COUNT
                     (generate_fake_data R (Pandas.dropna s) col_name) r))).
  { unfold base. now rewrite base_examples_variable. }
  destruct (fst (repeat_gen EXAMPLE_COUNT
              (generate_fake_data R (Pandas.dropna s) col_name) r))
    as [|g1 [|g2 [|g3 [|g4 [|g5 [|g6 l]]]]]]; try discriminate Hlen.
  exists g1, g2, g3, g4, g5. split; [reflexivity|].
  rewrite Hex, Hk, Hbase. reflexivity.
Qed.

Lemma empty_slot_substitution_witness :
  values fifty_rows_ten_empty <> [] /\
  List.length (values fifty_rows_ten_empty) = 50 /\
  rows_of_kind counting_runtime Tom (values fifty_rows_ten_empty) = 10 /\
  is_categorical fifty_rows_ten_empty = false /\
  examples_part (fst (analyze_column counting_runtime fifty_rows_ten_empty "Belopp" 0))
    = [VStr "ord1"; VStr "ord2"; VStr "ord3"; VStr "ord4"; marker].
Proof.
  assert (Hne : values fifty_rows_ten_empty <> []) by discriminate.
  assert (Hn : List.length (values fifty_rows_ten_empty) = 50) by reflexivity.
  assert (Ht : rows_of_kind counting_runtime Tom (values fifty_rows_ten_empty) = 10)
    by reflexivity.
  assert (Hc : is_categorical fifty_rows_ten_empty = false) by reflexivity.
  repeat (split; [assumption|]).
  destruct (empty_slot_substitution counting_runtime fifty_rows_ten_empty "Belopp" 0 Hne)
    as (_ & _ & _ & _ & H).
  destruct (H Hn Ht Hc) as (g1 & g2 & g3 & g4 & g5 & Hg & Hex).
  rewrite Hex. vm_compute in Hg. inversion Hg. reflexivity.
Defined.

(* ================================================================= *)
(** ** Blank text *)



(* ================================================================= *)
(** ** Categorical or variable *)

Lemma text_kind_is_text (R : Runtime) (v : value) :
  kind_of R v = Text -> exists t, v = VStr t.
Proof.
  unfold kind_of, is_empty.
  destruct v; simpl; try discriminate.
  - destruct (String.eqb _ _); discriminate.
  - destruct (String.eqb _ _); discriminate.
  - destruct (String.eqb _ _); discriminate.
  - destruct (String.eqb _ _); discriminate.
  - intros _. now exists s.
Qed.

(** C4, as amended: on a sample without blank text, the column is
    categorical exactly when the number of distinct non-empty values is
    above 0 and at most [CATEGORICAL_THRESHOLD] and the dtype of the column
    is textual (object or string). The dtype is textual whenever the
    well-formed column has a non-empty value and all of them are of kind
    Text; a column of a numeric or datetime dtype is never categorical;
    and the note of the result says categorical exactly in that case. *)
Theorem categorical_by_count_and_dtype (R : Runtime) (s : Series) :
  no_blank_text R s ->
  let d := distinct_non_empty R s in
  (is_categorical s = true <->
   0 < List.length d /\ List.length d <= CATEGORICAL_THRESHOLD /\
   Pandas.is_string_dtype (dtype s) = true) /\
  (Pandas.well_formed s = true -> 0 < List.length d ->
   (forall v, In v d -> kind_of R v = Text) ->
   Pandas.is_string_dtype (dtype s) = true) /\
  (Pandas.is_numeric_dtype (dtype s) = true \/
   Pandas.is_datetime64_any_dtype (dtype s) = true ->
   is_categorical s = false) /\
  (forall col_name r, values s <> [] ->
   note_part (fst (analyze_column R s col_name r)) =
     if is_categorical s then categorical_note (List.length d) else variable_note).
Proof.
  intros Hnb d.
  assert (Hd : unique_values s = d) by (apply unique_values_distinct_non_empty; assumption).
  split; [rewrite <- Hd; apply is_categorical_iff|].
  split.
  { intros Hwf Hpos Htext.
    destruct d as [|v d'] eqn:Ed; [simpl in Hpos; lia|].
    assert (Hv : In v (v :: d')) by now left.
    destruct (text_kind_is_text R v (Htext v Hv)) as [t ->].
    rewrite <- Ed in Hv. unfold d, distinct_non_empty in Hv.
    apply unique_from_incl in Hv. apply filter_In in Hv. destruct Hv as [Hv _].
    unfold Pandas.well_formed in Hwf. rewrite forallb_forall in Hwf.
    specialize (Hwf _ Hv). destruct (dtype s); simpl in *; congruence. }
  split.
  { intro H. destruct (is_categorical s) eqn:E; [|reflexivity].
    apply is_categorical_iff in E. destruct E as (_ & _ & E).
    destruct (dtype s); simpl in *; destruct H; discriminate. }
  intros col_name r Hne. rewrite <- Hd. now apply analysis_note_rows.
Qed.

Lemma categorical_by_count_and_dtype_witness :
  no_blank_text counting_runtime number_and_text /\
  is_categorical number_and_text = true /\
  List.length (distinct_non_empty counting_runtime number_and_text) = 2 /\
  Pandas.is_string_dtype (dtype number_and_text) = true.
Proof.
  assert (Hnb : no_blank_text counting_runtime number_and_text).
  { intros v [<-|[<-|[]]] H; vm_compute in H; discriminate. }
  split; [exact Hnb|].
  destruct (categorical_by_count_and_dtype _ _ Hnb) as ([_ H] & _).
  assert (Hc : is_categorical number_and_text = true).
  { apply H. vm_compute. repeat split; lia. }
  split; [exact Hc | split; reflexivity].
Defined.

(** C4, as stated, fails on a column that mixes a number and a text: it
    is categorical with 2 distinct values although one of them is of kind
    Tal. *)
Lemma mixed_column_is_categorical :
  Pandas.well_formed number_and_text = true /\
  distinct_non_empty counting_runtime number_and_text = [VInt 1; VStr "a"] /\
  kind_of counting_runtime (VInt 1) = Tal /\
  note_part (fst (analyze_column counting_runtime number_and_text "Kod" 0))
    = "Kategorisk (2 unika värden)" /\
  ~ (is_categorical number_and_text = true <->
     0 < List.length (distinct_non_empty counting_runtime number_and_text) /\
     List.length (distinct_non_empty counting_runtime number_and_text)
       <= CATEGORICAL_THRESHOLD /\
     forall v, In v (distinct_non_empty counting_runtime number_and_text) ->
               kind_of counting_runtime v = Text).
Proof.
  repeat split; try reflexivity.
  intros [H _].
  assert (Hc : is_categorical number_and_text = true) by reflexivity.
  destruct (H Hc) as (_ & _ & Ht).
  specialize (Ht (VInt 1) (or_introl eq_refl)). vm_compute in Ht. discriminate.
Qed.

(* ================================================================= *)
(** ** Length of the example list *)

Lemma cities_result (R : Runtime) (col_name : string) (r : rng R) :
  analyze_column R cities col_name r =
    (("Text (100%)", [VStr "Stockholm"; VStr "Malmö"; VStr "Göteborg"],
      "Kategorisk (3 unika värden)"), r).
Proof. vm_compute. reflexivity. Qed.

(** C6, as amended: on a sample within the cap [SAMPLE_SIZE], the
    example list is empty when the sample has no row; it has exactly
    [EXAMPLE_COUNT] entries when the column is variable; and when the
    column is categorical with [u] distinct values and [k] marker slots it
    has [max (min u EXAMPLE_COUNT) k] entries, which is at least 1 and at
    most [EXAMPLE_COUNT]. *)
Theorem example_list_length (R : Runtime) (s : Series) (col_name : string) (r : rng R) :
  List.length (values s) <= SAMPLE_SIZE ->
  let examples := examples_part (fst (analyze_column R s col_name r)) in
  let k := empty_slots (rows_of_kind R Tom (values s)) (List.length (values s)) in
  (values s = [] -> examples = []) /\
  (values s <> [] -> is_categorical s = false ->
   List.length examples = EXAMPLE_COUNT) /\
  (values s <> [] -> is_categorical s = true ->
   List.length examples = Nat.max (Nat.min (List.length (unique_values s)) EXAMPLE_COUNT) k /\
   1 <= List.length examples <= EXAMPLE_COUNT).
Proof.
  intros Hcap examples k.
  split.
  { intro He. unfold examples, analyze_column. rewrite He. reflexivity. }
  assert (Hk : values s <> [] -> k <= EXAMPLE_COUNT).
  { intro Hne. apply empty_slots_le; [| assumption | apply rows_of_kind_le].
    destruct (values s); [contradiction | simpl; lia]. }
  assert (Hex : values s <> [] ->
                List.length examples
                = List.length (fst (fst (base_examples R s col_name r))) - k + k).
  { intro Hne. unfold examples. rewrite analyze_column_rows by assumption.
    cbv zeta. unfold examples_part. cbn [fst snd].
    rewrite length_app, length_skipn, repeat_length. reflexivity. }
  split.
  - intros Hne Hcat. rewrite (Hex Hne), base_examples_variable by assumption.
    cbn [fst]. rewrite length_map, repeat_gen_length. specialize (Hk Hne). lia.
  - intros Hne Hcat. rewrite (Hex Hne), base_examples_categorical by assumption.
    cbn [fst]. rewrite length_firstn. specialize (Hk Hne).
    apply is_categorical_iff in Hcat. destruct Hcat as (Hpos & _ & _).
    unfold EXAMPLE_COUNT in *. lia.
Qed.

Lemma example_list_length_witness :
  List.length (values cities) <= SAMPLE_SIZE /\
  values cities <> [] /\
  is_categorical cities = true /\
  List.length (examples_part (fst (analyze_column counting_runtime cities "Stad" 0))) = 3.
Proof.
  assert (Hcap : List.length (values cities) <= SAMPLE_SIZE) by (vm_compute; lia).
  assert (Hne : values cities <> []) by discriminate.
  assert (Hcat : is_categorical cities = true) by reflexivity.
  repeat (split; [assumption|]).
  destruct (example_list_length counting_runtime cities "Stad" 0 Hcap) as (_ & _ & H).
  destruct (H Hne Hcat) as [Hlen _].
  rewrite Hlen. reflexivity.
Defined.

(** C6, as stated, fails on the city names: the sample has rows and its
    example list has 3 entries, not [EXAMPLE_COUNT]. *)
Lemma cities_example_list_is_short :
  values cities <> [] /\
  List.length (examples_part (fst (analyze_column counting_runtime cities "Stad" 0))) = 3 /\
  List.length (examples_part (fst (analyze_column counting_runtime cities "Stad" 0)))
    <> EXAMPLE_COUNT.
Proof. repeat split; [discriminate | vm_compute; lia]. Qed.

(* ================================================================= *)
(** ** A column of personal numbers *)

Lemma In_skipn (A : Type) (n : nat) (l : list A) (x : A) :
  In x (skipn n l) -> In x l.
Proof.
  revert l. induction n as [|n IH]; intros l H; [assumption|].
  destruct l as [|y l]; [contradiction|]. right. now apply IH.
Qed.

(** C1, as amended: for a column whose lowered name is "personnummer",
    as "Personnummer" is, and whose sample has rows, whenever the column
    is variable the note says so and the examples are five draws of the
    personal-number generator with the first [k] dropped and [k] markers
    appended, so every example is a marker or an output of that generator.
    A column of a dtype that is not textual is variable whatever its
    number of distinct values, and when it is well formed no example equals
    a value of the sample. *)
Theorem personnummer_column (R : Runtime) (s : Series) (col_name : string) (r : rng R) :
  lower R col_name = "personnummer" ->
  values s <> [] ->
  let res := fst (analyze_column R s col_name r) in
  let k := empty_slots (rows_of_kind R Tom (values s)) (List.length (values s)) in
  let draws := fst (repeat_gen EXAMPLE_COUNT (fake_ssn R) r) in
  (is_categorical s = false ->
   note_part res = variable_note /\
   examples_part res = (skipn k (map VStr draws) ++ repeat marker k)%list /\
   Forall (fun e => e = marker \/ exists r', e = VStr (fst (fake_ssn R r')))
          (examples_part res)) /\
  (Pandas.is_string_dtype (dtype s) = false ->
   is_categorical s = false /\
   (Pandas.well_formed s = true ->
    Forall (fun e => ~ In e (values s)) (examples_part res))).
Proof.
  intros Hname Hne res k draws.
  assert (Hgen : generate_fake_data R (Pandas.dropna s) col_name = fake_ssn R).
  { apply generate_fake_data_token. rewrite Hname. reflexivity. }
  assert (Hvar : is_categorical s = false ->
                 note_part res = variable_note /\
                 examples_part res = (skipn k (map VStr draws) ++ repeat marker k)%list).
  { intro Hcat. split.
    - unfold res. rewrite analysis_note_rows by assumption. now rewrite Hcat.
    - unfold res. rewrite analyze_column_rows by assumption. cbv zeta.
      rewrite base_examples_variable by assumption. rewrite Hgen. reflexivity. }
  assert (Hshape : is_categorical s = false ->
                   Forall (fun e => exists t, e = VStr t) (examples_part res)).
  { intro Hcat. destruct (Hvar Hcat) as [_ ->].
    apply Forall_app. split.
    - apply Forall_forall. intros e He. apply In_skipn in He.
      apply in_map_iff in He. destruct He as [t [<- _]]. now exists t.
    - apply Forall_forall. intros e He. apply repeat_spec in He. subst.
      now exists "(tom)". }
  split.
  - intro Hcat. destruct (Hvar Hcat) as [Hnote Hex].
    split; [assumption|]. split; [assumption|].
    rewrite Hex. apply Forall_app. split.
    + apply Forall_forall. intros e He. apply In_skipn in He.
      apply in_map_iff in He. destruct He as [t [<- Ht]]. right.
      pose proof (repeat_gen_outputs R string (fake_ssn R) EXAMPLE_COUNT r) as Hout.
      rewrite Forall_forall in Hout. destruct (Hout t Ht) as [r' ->].
      now exists r'.
    + apply Forall_forall. intros e He. apply repeat_spec in He. now left.
  - intro Hd.
    assert (Hcat : is_categorical s = false).
    { destruct (is_categorical s) eqn:E; [|reflexivity].
      apply is_categorical_iff in E. destruct E as (_ & _ & E). congruence. }
    split; [assumption|].
    intro Hwf. specialize (Hshape Hcat).
    rewrite Forall_forall in *. intros e He Hin.
    destruct (Hshape e He) as [t ->].
    eapply non_text_dtype_values; eassumption.
Qed.

Lemma personnummer_column_witness :
  lower counting_runtime "Personnummer" = "personnummer" /\
  values personnummer_numbers <> [] /\
  Pandas.is_string_dtype (dtype personnummer_numbers) = false /\
  Pandas.well_formed personnummer_numbers = true /\
  note_part (fst (analyze_column counting_runtime personnummer_numbers "Personnummer" 0))
    = variable_note /\
  examples_part (fst (analyze_column counting_runtime personnummer_numbers "Personnummer" 0))
    = [VStr "800101-1000"; VStr "800101-1001"; VStr "800101-1002";
       VStr "800101-1003"; VStr "800101-1004"].
Proof.
  assert (Hname : lower counting_runtime "Personnummer" = "personnummer") by reflexivity.
  assert (Hne : values personnummer_numbers <> []) by discriminate.
  assert (Hd : Pandas.is_string_dtype (dtype personnummer_numbers) = false) by reflexivity.
  assert (Hwf : Pandas.well_formed personnummer_numbers = true) by reflexivity.
  repeat (split; [assumption|]).
  destruct (personnummer_column counting_runtime personnummer_numbers "Personnummer" 0
              Hname Hne) as [Hvar Hnum].
  destruct (Hnum Hd) as [Hcat _].
  destruct (Hvar Hcat) as (Hnote & Hex & _).
  split; [exact Hnote|]. rewrite Hex. vm_compute. reflexivity.
Defined.

(** C1, as stated, fails on ten distinct personal numbers held as text:
    the column is categorical and the examples are the first five values
    of the sample themselves. *)
Lemma personnummer_texts_shown_verbatim :
  List.length (unique_values personnummer_texts) = 10 /\
  analyze_column counting_runtime personnummer_texts "Personnummer" 0 =
    (("Text (100%)",
      [VStr "8001011231"; VStr "8102022345"; VStr "8203033456"; VStr "8304044567";
       VStr "8405055678"],
      "Kategorisk (10 unika värden)"), 0) /\
  ~ (note_part (fst (analyze_column counting_runtime personnummer_texts "Personnummer" 0))
       = variable_note /\
     Forall (fun e => ~ In e (values personnummer_texts))
       (examples_part (fst (analyze_column counting_runtime personnummer_texts
                              "Personnummer" 0)))).
Proof.
  split; [reflexivity|]. split; [vm_compute; reflexivity|].
  intros [H _]. vm_compute in H. discriminate.
Qed.

(* ================================================================= *)
(** ** Examples drawn from the content *)

(** With no token in the column name, a variable column gets words: the
    draws do not look at the sample, numeric or not. *)
Lemma unmatched_name_examples_are_words
    (R : Runtime) (s : Series) (col_name : string) (r : rng R) :
  name_rule R (lower R col_name) = None ->
  values s <> [] ->
  is_categorical s = false ->
  examples_part (fst (analyze_column R s col_name r)) =
    (skipn (empty_slots (rows_of_kind R Tom (values s)) (List.length (values s)))
           (map VStr (fst (repeat_gen EXAMPLE_COUNT (fake_word R) r)))
     ++ repeat marker
          (empty_slots (rows_of_kind R Tom (values s)) (List.length (values s))))%list.
Proof.
  intros Hname Hne Hcat.
  rewrite analyze_column_rows by assumption. cbv zeta.
  rewrite base_examples_variable by assumption.
  rewrite (generate_fake_data_no_token R (Pandas.dropna s) col_name Hname).
  reflexivity.
Qed.

(** C2, on the code: for the column "Ålder" holding the integers 18, 30
    and 65, which is variable and of a numeric dtype, the five examples
    are five draws of [fake.word()], not numbers drawn between the least
    and the greatest value of the sample. *)
Theorem age_column_examples_are_words (R : Runtime) (r : rng R) :
  lower R "Ålder" = "ålder" ->
  Pandas.is_numeric_dtype (dtype ages) = true /\
  name_rule R (lower R "Ålder") = None /\
  analyze_column R ages "Ålder" r =
    (("Tal (100%)",
      map VStr (fst (repeat_gen EXAMPLE_COUNT (fake_word R) r)),
      variable_note),
     snd (repeat_gen EXAMPLE_COUNT (fake_word R) r)).
Proof.
  intro Hname.
  assert (Hrule : name_rule R (lower R "Ålder") = None) by (rewrite Hname; reflexivity).
  split; [reflexivity|]. split; [exact Hrule|].
  rewrite analyze_column_rows by discriminate. cbv zeta.
  rewrite base_examples_variable by reflexivity.
  rewrite (generate_fake_data_no_token R (Pandas.dropna ages) "Ålder" Hrule).
  cbn [fst snd].
  replace (empty_slots (rows_of_kind R Tom (values ages)) (List.length (values ages)))
    with 0 by (vm_compute; reflexivity).
  replace (summary_of (count_types R (values ages)) (List.length (values ages)))
    with "Tal (100%)" by (vm_compute; reflexivity).
  simpl skipn. simpl repeat. now rewrite app_nil_r.
Qed.

Lemma age_column_examples_are_words_witness :
  lower counting_runtime "Ålder" = "ålder" /\
  examples_part (fst (analyze_column counting_runtime ages "Ålder" 0)) =
    [VStr "ord0"; VStr "ord1"; VStr "ord2"; VStr "ord3"; VStr "ord4"].
Proof.
  assert (Hname : lower counting_runtime "Ålder" = "ålder") by reflexivity.
  split; [exact Hname|].
  destruct (age_column_examples_are_words counting_runtime 0 Hname) as (_ & _ & H).
  rewrite H. reflexivity.
Defined.

(* ================================================================= *)
(** ** Columns of empty rows *)

(** When every row is empty and the sample is within the cap, the
    example list is [EXAMPLE_COUNT] markers. *)
Lemma all_empty_examples_are_markers
    (R : Runtime) (s : Series) (col_name : string) (r : rng R) :
  values s <> [] ->
  List.length (values s) <= SAMPLE_SIZE ->
  (forall v, In v (values s) -> kind_of R v = Tom) ->
  examples_part (fst (analyze_column R s col_name r)) = repeat marker EXAMPLE_COUNT.
Proof.
  intros Hne Hcap Hall.
  assert (Hrows : rows_of_kind R Tom (values s) = List.length (values s)).
  { unfold rows_of_kind. f_equal.
    apply forallb_filter_id. apply forallb_forall. intros v Hv.
    rewrite (Hall v Hv). reflexivity. }
  rewrite analyze_column_rows by assumption. cbv zeta.
  unfold examples_part. cbn [fst snd].
  rewrite Hrows, empty_slots_all; [| | assumption].
  - rewrite skipn_all2; [reflexivity | apply base_examples_length].
  - destruct (values s); [contradiction | simpl; lia].
Qed.

(** When every row is missing the column is variable. *)
Lemma all_missing_is_variable
    (R : Runtime) (s : Series) (col_name : string) (r : rng R) :
  values s <> [] ->
  (forall v, In v (values s) -> Pandas.isna v = true) ->
  note_part (fst (analyze_column R s col_name r)) = variable_note.
Proof.
  intros Hne Hall. rewrite analysis_note_rows by assumption.
  now rewrite all_missing_not_categorical.
Qed.

(** C5, on the code: two rows of blank text are both empty, and the
    example list is all markers, yet the column is reported categorical
    with 2 distinct values, not variable. *)
Theorem blank_column_is_categorical (R : Runtime) (col_name : string) (r : rng R) :
  rows_of_kind R Tom (values blank_rows) = List.length (values blank_rows) /\
  analyze_column R blank_rows col_name r =
    (("Tom (100%)", repeat marker EXAMPLE_COUNT, "Kategorisk (2 unika värden)"), r) /\
  note_part (fst (analyze_column R blank_rows col_name r)) <> variable_note.
Proof.
  split; [reflexivity|].
  assert (H : analyze_column R blank_rows col_name r =
              (("Tom (100%)", repeat marker EXAMPLE_COUNT,
                "Kategorisk (2 unika värden)"), r))
    by (vm_compute; reflexivity).
  split; [exact H|]. rewrite H. vm_compute. discriminate.
Qed.

(* ================================================================= *)
(** ** Categorical examples *)

(** The examples of a categorical column before the empty slots are the
    first [EXAMPLE_COUNT] distinct values that are not missing, in order
    of first occurrence; without blank text these are the distinct
    non-empty values. *)
Lemma categorical_examples_first_occurrence
    (R : Runtime) (s : Series) (col_name : string) (r : rng R) :
  is_categorical s = true ->
  fst (base_examples R s col_name r) =
    (firstn EXAMPLE_COUNT (unique_values s),
     categorical_note (List.length (unique_values s))) /\
  (no_blank_text R s ->
   fst (fst (base_examples R s col_name r)) =
     firstn EXAMPLE_COUNT (distinct_non_empty R s)).
Proof.
  intro Hcat. rewrite base_examples_categorical by assumption.
  split; [reflexivity|].
  intro Hnb. cbn [fst]. now rewrite (unique_values_distinct_non_empty R s Hnb).
Qed.

(** C7, on the code: in the categorical column ["a"; " "; "b"] the
    distinct non-empty values are "a" and "b", but the examples before the
    empty slots are "a", the blank text and "b"; the blank text is in the
    final example list too. The example of the specification, the four
    city names, gives the three distinct names in order. *)
Theorem blank_text_among_categorical_examples
    (R : Runtime) (col_name : string) (r : rng R) :
  is_categorical text_with_blank = true /\
  distinct_non_empty R text_with_blank = [VStr "a"; VStr "b"] /\
  fst (base_examples R text_with_blank col_name r) =
    ([VStr "a"; VStr " "; VStr "b"], "Kategorisk (3 unika värden)") /\
  analyze_column R text_with_blank col_name r =
    (("Text (67%), Tom (33%)", [VStr " "; VStr "b"; marker],
      "Kategorisk (3 unika värden)"), r) /\
  analyze_column R cities col_name r =
    (("Text (100%)", [VStr "Stockholm"; VStr "Malmö"; VStr "Göteborg"],
      "Kategorisk (3 unika värden)"), r).
Proof.
  split; [reflexivity|].
  split; [vm_compute; reflexivity|].
  split; [vm_compute; reflexivity|].
  split; [vm_compute; reflexivity|].
  apply cities_result.
Qed.

(* ================================================================= *)
(** ** More on generate_fake_data *)

(** X1: the value that [generate_fake_data] draws and the state it
    leaves are the same whatever the sample holds: only the column name
    and the random sources decide them. *)
Theorem generated_value_ignores_sample
    (R : Runtime) (s s' : Series) (col_name : string) (r : rng R) :
  generate_fake_data R s col_name r = generate_fake_data R s' col_name r.
Proof.
  unfold generate_fake_data.
  destruct (name_rule R (lower R col_name)) as [g|]; [reflexivity|].
  rewrite !astype_str_infer. reflexivity.
Qed.

(** X2: whatever the sample and the column name, [generate_fake_data]
    is one of nine generators of Faker: name, company, email, phone
    number, address on one line, personal number, six-digit number, date
    or word. The draw of a number between the least and the greatest value
    of the sample is never made. *)
Theorem generated_value_family (R : Runtime) (s : Series) (col_name : string) :
  In (generate_fake_data R s col_name)
     [fake_name R; fake_company R; fake_email R; fake_phone_number R;
      fmap PyStr.replace_newline (fake_address R); fake_ssn R;
      fmap PyStr.of_Z (fake_random_number R 6 true); fake_date R; fake_word R].
Proof.
  unfold generate_fake_data.
  destruct (name_rule R (lower R col_name)) as [g|] eqn:E.
  - revert E. unfold name_rule.
    repeat match goal with
           | |- context [if ?b || ?c then _ else _] =>
               destruct b; cbn [orb];
               [intro E; inversion E; simpl; tauto|]
           | |- context [if ?b then _ else _] =>
               destruct b; [intro E; inversion E; simpl; tauto|]
           end.
    discriminate.
  - rewrite astype_str_infer. simpl. tauto.
Qed.

Lemma contains_newline_cons (c : ascii) (s : string) :
  PyStr.contains newline (String c s) =
    Ascii.eqb c (ascii_of_nat 10) || PyStr.contains newline s.
Proof.
  unfold newline. cbn [PyStr.contains String.prefix].
  destruct (ascii_dec (ascii_of_nat 10) c) as [<-|Hne].
  - rewrite Ascii.eqb_refl. destruct s; reflexivity.
  - destruct (Ascii.eqb c (ascii_of_nat 10)) eqn:E; [|reflexivity].
    apply Ascii.eqb_eq in E. congruence.
Qed.

Lemma replace_newline_single_line (s : string) :
  PyStr.contains newline (PyStr.replace_newline s) = false.
Proof.
  induction s as [|c s IH]; [reflexivity|].
  cbn [PyStr.replace_newline].
  change "010"%char with (ascii_of_nat 10).
  destruct (Ascii.eqb c (ascii_of_nat 10)) eqn:E.
  - change (", " ++ PyStr.replace_newline s)
      with (String "," (String " " (PyStr.replace_newline s))).
    rewrite !contains_newline_cons, IH. reflexivity.
  - rewrite contains_newline_cons, E, IH. reflexivity.
Qed.

(** X3: when the lowered column name holds "adress" and none of the
    tokens tested before it, the generated value is the address of Faker
    with every line break replaced, so it holds no line break. *)
Theorem address_value_single_line
    (R : Runtime) (s : Series) (col_name : string) (r : rng R) :
  PyStr.contains "adress" (lower R col_name) = true ->
  PyStr.contains "namn" (lower R col_name) = false ->
  PyStr.contains "kund" (lower R col_name) = false ->
  PyStr.contains "företag" (lower R col_name) = false ->
  PyStr.contains "epost" (lower R col_name) = false ->
  PyStr.contains "email" (lower R col_name) = false ->
  PyStr.contains "telefon" (lower R col_name) = false ->
  PyStr.contains "mobil" (lower R col_name) = false ->
  fst (generate_fake_data R s col_name r)
    = PyStr.replace_newline (fst (fake_address R r)) /\
  PyStr.contains newline (fst (generate_fake_data R s col_name r)) = false.
Proof.
  intros Ha H1 H2 H3 H4 H5 H6 H7.
  assert (E : fst (generate_fake_data R s col_name r)
              = PyStr.replace_newline (fst (fake_address R r))).
  { unfold generate_fake_data, name_rule.
    rewrite H1, H2, H3, H4, H5, H6, H7, Ha. cbn [orb].
    unfold fmap, bind, ret. destruct (fake_address R r). reflexivity. }
  split; [exact E|]. rewrite E. apply replace_newline_single_line.
Qed.

Lemma address_value_single_line_witness :
  PyStr.contains "adress" (lower counting_runtime "Adress") = true /\
  fst (generate_fake_data counting_runtime ages "Adress" 0) = "Storgatan 1, 123 45 Lund" /\
  PyStr.contains newline (fst (generate_fake_data counting_runtime ages "Adress" 0)) = false.
Proof.
  assert (Ha : PyStr.contains "adress" (lower counting_runtime "Adress") = true)
    by reflexivity.
  split; [exact Ha|].
  destruct (address_value_single_line counting_runtime ages "Adress" 0 Ha
              eq_refl eq_refl eq_refl eq_refl eq_refl eq_refl eq_refl) as [E Hn].
  split; [rewrite E; reflexivity | exact Hn].
Defined.

(* ================================================================= *)
(** ** More on analyze_column *)

Lemma categorical_has_rows (s : Series) : is_categorical s = true -> values s <> [].
Proof.
  intro H. apply is_categorical_iff in H. destruct H as (Hpos & _ & _).
  intro He. unfold unique_values, Pandas.unique, Pandas.dropna in Hpos.
  rewrite He in Hpos. simpl in Hpos. lia.
Qed.

(** X4: for a categorical column the result depends neither on the
    column name nor on the random sources, and no value is drawn: the
    generator state is returned as it was. *)
Theorem categorical_result_ignores_name
    (R : Runtime) (s : Series) (col_name col_name' : string) (r r' : rng R) :
  is_categorical s = true ->
  fst (analyze_column R s col_name r) = fst (analyze_column R s col_name' r') /\
  snd (analyze_column R s col_name r) = r.
Proof.
  intro Hcat. pose proof (categorical_has_rows s Hcat) as Hne.
  rewrite !analyze_column_rows by assumption. cbv zeta.
  rewrite !base_examples_categorical by assumption. split; reflexivity.
Qed.

Lemma categorical_result_ignores_name_witness :
  is_categorical cities = true /\
  fst (analyze_column counting_runtime cities "Stad" 0)
    = fst (analyze_column counting_runtime cities "Personnummer" 7) /\
  snd (analyze_column counting_runtime cities "Stad" 0) = 0.
Proof.
  assert (Hcat : is_categorical cities = true) by reflexivity.
  split; [exact Hcat|].
  exact (categorical_result_ignores_name counting_runtime cities "Stad" "Personnummer" 0 7 Hcat).
Defined.

(** X5: for two variable columns with as many rows and as many empty
    rows, the same column name and the same generator state give the same
    examples, the same note and the same state afterwards: a variable
    column shows nothing of its sample but the share of empty rows. *)
Theorem variable_examples_depend_on_counts
    (R : Runtime) (s s' : Series) (col_name : string) (r : rng R) :
  values s <> [] ->
  List.length (values s) = List.length (values s') ->
  rows_of_kind R Tom (values s) = rows_of_kind R Tom (values s') ->
  is_categorical s = false ->
  is_categorical s' = false ->
  examples_part (fst (analyze_column R s col_name r))
    = examples_part (fst (analyze_column R s' col_name r)) /\
  note_part (fst (analyze_column R s col_name r))
    = note_part (fst (analyze_column R s' col_name r)) /\
  snd (analyze_column R s col_name r) = snd (analyze_column R s' col_name r).
Proof.
  intros Hne Hlen Htom Hcat Hcat'.
  assert (Hne' : values s' <> []).
  { intro He. rewrite He in Hlen. destruct (values s); [contradiction | discriminate]. }
  rewrite !analyze_column_rows by assumption. cbv zeta.
  rewrite !base_examples_variable by assumption.
  assert (Hg : generate_fake_data R (Pandas.dropna s) col_name
               = generate_fake_data R (Pandas.dropna s') col_name)
    by apply generate_fake_data_sample_free.
  rewrite Hg, Hlen, Htom. repeat split; reflexivity.
Qed.

Lemma variable_examples_depend_on_counts_witness :
  values ages <> [] /\
  values ages <> values other_ages /\
  examples_part (fst (analyze_column counting_runtime ages "Belopp" 0))
    = examples_part (fst (analyze_column counting_runtime other_ages "Belopp" 0)).
Proof.
  assert (Hne : values ages <> []) by discriminate.
  split; [exact Hne|]. split; [discriminate|].
  destruct (variable_examples_depend_on_counts counting_runtime ages other_ages "Belopp" 0
              Hne eq_refl eq_refl eq_refl eq_refl) as [H _].
  exact H.
Defined.

Lemma In_firstn_incl (A : Type) (n : nat) (l : list A) (x : A) :
  In x (firstn n l) -> In x l.
Proof.
  revert l. induction n as [|n IH]; intros l H; [contradiction|].
  destruct l as [|y l]; [contradiction|].
  destruct H as [->|H]; [now left | right; now apply IH].
Qed.

(** X6: every example of a categorical column is the marker or a value
    of the sample that is not missing. *)
Theorem categorical_examples_are_sample_values
    (R : Runtime) (s : Series) (col_name : string) (r : rng R) :
  is_categorical s = true ->
  Forall (fun e => e = marker \/ (In e (values s) /\ Pandas.isna e = false))
         (examples_part (fst (analyze_column R s col_name r))).
Proof.
  intro Hcat. pose proof (categorical_has_rows s Hcat) as Hne.
  rewrite analyze_column_rows by assumption. cbv zeta.
  rewrite base_examples_categorical by assumption.
  unfold examples_part. cbn [fst snd].
  apply Forall_app. split; apply Forall_forall; intros e He.
  - right. apply In_skipn in He. apply In_firstn_incl in He.
    now apply unique_values_incl.
  - left. now apply repeat_spec in He.
Qed.

Lemma categorical_examples_are_sample_values_witness :
  is_categorical blank_last = true /\
  Forall (fun e => e = marker \/ (In e (values blank_last) /\ Pandas.isna e = false))
         (examples_part (fst (analyze_column counting_runtime blank_last "Ort" 0))).
Proof.
  assert (Hcat : is_categorical blank_last = true) by reflexivity.
  split; [exact Hcat|].
  exact (categorical_examples_are_sample_values counting_runtime blank_last "Ort" 0 Hcat).
Defined.

(* ----------------------------------------------------------------- *)
(** *** The distinct values *)

Lemma py_eqb_refl (v : value) : Pandas.isna v = false -> Pandas.py_eqb v v = true.
Proof.
  destruct v; simpl; try discriminate; intros _.
  - apply Qeq_bool_iff. reflexivity.
  - apply Qeq_bool_iff. reflexivity.
  - apply Qeq_bool_iff. reflexivity.
  - apply Z.eqb_refl.
  - apply String.eqb_refl.
Qed.

Lemma existsb_cons_false (f : value -> bool) (x : value) (l : list value) :
  existsb f (x :: l) = false -> f x = false /\ existsb f l = false.
Proof. simpl. intro H. now apply orb_false_iff in H. Qed.

Lemma unique_from_fresh (vs seen : list value) :
  ForallOrdPairs (fun a b => Pandas.py_eqb b a = false) (Pandas.unique_from seen vs) /\
  Forall (fun u => existsb (Pandas.py_eqb u) seen = false) (Pandas.unique_from seen vs).
Proof.
  revert seen. induction vs as [|v vs IH]; intro seen; simpl.
  - split; constructor.
  - destruct (existsb (Pandas.py_eqb v) seen) eqn:E; [apply IH|].
    destruct (IH (v :: seen)) as [Hpairs Hfresh].
    split.
    + constructor; [|assumption].
      apply Forall_forall. intros u Hu. rewrite Forall_forall in Hfresh.
      now destruct (existsb_cons_false _ _ _ (Hfresh u Hu)).
    + constructor; [assumption|].
      apply Forall_forall. intros u Hu. rewrite Forall_forall in Hfresh.
      now destruct (existsb_cons_false _ _ _ (Hfresh u Hu)).
Qed.

Lemma unique_from_covers (vs seen : list value) (v : value) :
  (forall x, In x vs -> Pandas.py_eqb x x = true) ->
  In v vs ->
  exists u, (In u seen \/ In u (Pandas.unique_from seen vs)) /\ Pandas.py_eqb v u = true.
Proof.
  revert seen. induction vs as [|x vs IH]; intros seen Hrefl Hin; [contradiction|].
  simpl. destruct (existsb (Pandas.py_eqb x) seen) eqn:E.
  - destruct Hin as [->|Hin].
    + apply existsb_exists in E. destruct E as [u [Hu Heq]]. exists u. tauto.
    + apply IH; [|assumption]. intros y Hy. apply Hrefl. now right.
  - destruct Hin as [->|Hin].
    + exists v. split; [right; now left | apply Hrefl; now left].
    + destruct (IH (x :: seen)) as [u [Hu Heq]]; [|assumption|].
      * intros y Hy. apply Hrefl. now right.
      * exists u. split; [|assumption].
        destruct Hu as [[->|Hu]|Hu]; [right; now left | now left | right; now right].
Qed.

(** X7: [unique_values] holds only values of the sample that are not
    missing, no two of its entries are equal in Python's sense (so 1, 1.0
    and True count once), and every value of the sample that is not missing
    is equal to one of its entries. *)
Theorem unique_values_distinct_and_complete (s : Series) :
  (forall u, In u (unique_values s) -> In u (values s) /\ Pandas.isna u = false) /\
  ForallOrdPairs (fun a b => Pandas.py_eqb b a = false) (unique_values s) /\
  (forall v, In v (values s) -> Pandas.isna v = false ->
             exists u, In u (unique_values s) /\ Pandas.py_eqb v u = true) /\
  List.length (unique_values s) <= List.length (values s).
Proof.
  split; [apply unique_values_incl|].
  split; [apply (unique_from_fresh _ [])|].
  split.
  - intros v Hin Hna.
    destruct (unique_from_covers (values (Pandas.dropna s)) [] v) as [u [Hu Heq]].
    + intros x Hx. simpl in Hx. apply filter_In in Hx. destruct Hx as [_ Hx].
      apply py_eqb_refl. now apply negb_true_iff in Hx.
    + simpl. apply filter_In. split; [assumption | now rewrite Hna].
    + exists u. split; [|assumption]. destruct Hu as [[]|Hu]. exact Hu.
  - unfold unique_values, Pandas.unique.
    etransitivity; [apply unique_from_length|]. simpl. apply filter_length_le.
Qed.

(* ----------------------------------------------------------------- *)
(** *** The order of the summary *)

Lemma keys_incr_append (k : Kind) (c : Counter) :
  map fst (incr k c) =
    if existsb (Kind_eqb k) (map fst c) then map fst c else (map fst c ++ [k])%list.
Proof.
  induction c as [|[k0 n] c IH]; simpl; [reflexivity|].
  destruct (Kind_eqb k k0) eqn:E; simpl; [reflexivity|].
  rewrite IH. destruct (existsb (Kind_eqb k) (map fst c)); reflexivity.
Qed.

Lemma fold_keys (R : Runtime) (vals : list value) (c : Counter) :
  map fst (fold_left (fun c val => incr (kind_of R val) c) vals c) =
    (map fst c ++ first_kinds (map fst c) (map (kind_of R) vals))%list.
Proof.
  revert c. induction vals as [|v vals IH]; intro c; simpl.
  - now rewrite app_nil_r.
  - rewrite IH, keys_incr_append.
    destruct (existsb (Kind_eqb (kind_of R v)) (map fst c)); [reflexivity|].
    now rewrite <- app_assoc.
Qed.

Lemma NoDup_kinds_length (l : list Kind) : NoDup l -> List.length l <= 4.
Proof.
  intro H.
  assert (Hincl : incl l [Tom; Tal; Datum; Text]).
  { intros k _. destruct k; simpl; tauto. }
  apply (NoDup_incl_length H Hincl).
Qed.

(** X8: the kinds of the counter, hence the entries of the summary,
    come in the order in which the kinds first occur in the sample, and
    there are at most four of them. *)
Theorem summary_order_is_first_occurrence
    (R : Runtime) (s : Series) (col_name : string) (r : rng R) :
  values s <> [] ->
  map fst (count_types R (values s)) = first_kinds [] (map (kind_of R) (values s)) /\
  List.length (count_types R (values s)) <= 4 /\
  summary_part (fst (analyze_column R s col_name r)) =
    String.concat ", "
      (map (fun tc : Kind * nat =>
              label (fst tc) ++ " (" ++
              PyFloat.format_percent
                (PyFloat.truediv (Z.of_nat (snd tc)) (Z.of_nat (List.length (values s))))
              ++ ")")
           (count_types R (values s))).
Proof.
  intro Hne. split; [apply (fold_keys R (values s) [])|].
  split.
  - rewrite <- (length_map fst). apply NoDup_kinds_length, count_types_NoDup.
  - rewrite analyze_column_rows by assumption. reflexivity.
Qed.

Lemma summary_order_is_first_occurrence_witness :
  values five_kinds <> [] /\
  map fst (count_types counting_runtime (values five_kinds)) = [Tal; Text; Tom; Datum].
Proof.
  assert (Hne : values five_kinds <> []) by discriminate.
  split; [exact Hne|].
  destruct (summary_order_is_first_occurrence counting_runtime five_kinds "Blandat" 0 Hne)
    as [H _].
  rewrite H. reflexivity.
Defined.

(* ----------------------------------------------------------------- *)
(** *** Markers and the share of empty rows *)

(** X9: within the cap, with [t] empty rows out of [n]: when fewer than
    one row in [EXAMPLE_COUNT] is empty ([EXAMPLE_COUNT * t < n]) no
    marker is put in and the examples are those selected or generated;
    from one row in [EXAMPLE_COUNT] on, the last example is the marker. *)
Theorem marker_threshold (R : Runtime) (s : Series) (col_name : string) (r : rng R) :
  values s <> [] ->
  List.length (values s) <= SAMPLE_SIZE ->
  let n := List.length (values s) in
  let t := rows_of_kind R Tom (values s) in
  let examples := examples_part (fst (analyze_column R s col_name r)) in
  (EXAMPLE_COUNT * t < n -> examples = fst (fst (base_examples R s col_name r))) /\
  (n <= EXAMPLE_COUNT * t -> exists front, examples = (front ++ [marker])%list).
Proof.
  intros Hne Hcap n t examples.
  assert (Hpos : 0 < n) by (unfold n; destruct (values s); [contradiction | simpl; lia]).
  assert (Hk : empty_slots t n = (t * EXAMPLE_COUNT) / n).
  { apply empty_slots_floor; [assumption | assumption | apply rows_of_kind_le]. }
  assert (Hex : examples =
                (skipn (empty_slots t n) (fst (fst (base_examples R s col_name r)))
                 ++ repeat marker (empty_slots t n))%list).
  { unfold examples. rewrite analyze_column_rows by assumption. reflexivity. }
  split.
  - intro Hlt. rewrite Hex, Hk, Nat.div_small by lia.
    simpl. apply app_nil_r.
  - intro Hge.
    assert (H1 : 1 <= (t * EXAMPLE_COUNT) / n).
    { apply Nat.div_le_lower_bound; lia. }
    rewrite Hex, Hk.
    destruct ((t * EXAMPLE_COUNT) / n) as [|k]; [lia|].
    exists (skipn (S k) (fst (fst (base_examples R s col_name r))) ++ repeat marker k)%list.
    rewrite <- app_assoc. f_equal.
    change (repeat marker (S k)) with (marker :: repeat marker k).
    apply repeat_cons.
Qed.

Lemma marker_threshold_witness :
  values one_empty_in_six <> [] /\
  List.length (values one_empty_in_six) <= SAMPLE_SIZE /\
  EXAMPLE_COUNT * rows_of_kind counting_runtime Tom (values one_empty_in_six)
    < List.length (values one_empty_in_six) /\
  examples_part (fst (analyze_column counting_runtime one_empty_in_six "Belopp" 0))
    = [VStr "ord0"; VStr "ord1"; VStr "ord2"; VStr "ord3"; VStr "ord4"].
Proof.
  assert (Hne : values one_empty_in_six <> []) by discriminate.
  assert (Hcap : List.length (values one_empty_in_six) <= SAMPLE_SIZE) by (vm_compute; lia).
  assert (Hlt : EXAMPLE_COUNT * rows_of_kind counting_runtime Tom (values one_empty_in_six)
                < List.length (values one_empty_in_six)) by (vm_compute; lia).
  repeat (split; [assumption|]).
  destruct (marker_threshold counting_runtime one_empty_in_six "Belopp" 0 Hne Hcap) as [H _].
  rewrite (H Hlt). reflexivity.
Defined.

(* ----------------------------------------------------------------- *)
(** *** The printed percentages *)

Lemma percent_exact_up_to_cap : forallb percent_exact (seq 1 SAMPLE_SIZE) = true.
Proof. vm_compute. reflexivity. Qed.

Lemma percent_exact_at (c n : nat) :
  0 < n -> n <= SAMPLE_SIZE -> c <= n ->
  (0 <= printed_percent c n <= 100)%Z /\
  (Z.abs (200 * Z.of_nat c - 2 * printed_percent c n * Z.of_nat n) <= Z.of_nat n)%Z.
Proof.
  intros Hpos Hcap Hc.
  pose proof percent_exact_up_to_cap as H.
  rewrite forallb_forall in H.
  assert (Hn : In n (seq 1 SAMPLE_SIZE)) by (apply in_seq; lia).
  specialize (H n Hn). unfold percent_exact in H.
  rewrite forallb_forall in H.
  assert (Hin : In c (seq 0 (S n))) by (apply in_seq; lia).
  specialize (H c Hin). cbv zeta in H.
  rewrite !andb_true_iff, !Z.leb_le in H. tauto.
Qed.

(** X10: within the cap, the percentage printed for [c] rows out of [n]
    is a whole number between 0 and 100 that is at most one half away from
    the exact percentage [100 * c / n]. *)
Theorem printed_percent_is_nearest (c n : nat) :
  0 < n -> n <= SAMPLE_SIZE -> c <= n ->
  PyFloat.format_percent (PyFloat.truediv (Z.of_nat c) (Z.of_nat n))
    = PyStr.of_Z (printed_percent c n) ++ "%" /\
  (0 <= printed_percent c n <= 100)%Z /\
  (Z.abs (200 * Z.of_nat c - 2 * printed_percent c n * Z.of_nat n) <= Z.of_nat n)%Z.
Proof.
  intros Hpos Hcap Hc. split; [reflexivity|].
  now apply percent_exact_at.
Qed.

Lemma printed_percent_is_nearest_witness :
  0 < 40 /\ 40 <= SAMPLE_SIZE /\ 3 <= 40 /\
  PyFloat.format_percent (PyFloat.truediv (Z.of_nat 3) (Z.of_nat 40)) = "8%".
Proof.
  assert (H1 : 0 < 40) by lia.
  assert (H2 : 40 <= SAMPLE_SIZE) by (vm_compute; lia).
  assert (H3 : 3 <= 40) by lia.
  repeat (split; [assumption|]).
  destruct (printed_percent_is_nearest 3 40 H1 H2 H3) as [H _].
  rewrite H. vm_compute. reflexivity.
Defined.

Lemma printed_percent_all (n : nat) :
  0 < n -> n <= SAMPLE_SIZE -> printed_percent n n = 100%Z.
Proof.
  intros Hpos Hcap.
  destruct (percent_exact_at n n Hpos Hcap (le_n n)) as (_ & H).
  nia.
Qed.

(* ----------------------------------------------------------------- *)
(** *** A column of missing values *)

Lemma missing_is_tom (R : Runtime) (v : value) : Pandas.isna v = true -> kind_of R v = Tom.
Proof. intro H. unfold kind_of, is_empty. now rewrite H. Qed.

Lemma fold_all_tom (R : Runtime) (vals : list value) (m : nat) :
  (forall v, In v vals -> kind_of R v = Tom) ->
  fold_left (fun c val => incr (kind_of R val) c) vals [(Tom, m)]
    = [(Tom, m + List.length vals)].
Proof.
  revert m. induction vals as [|v vals IH]; intros m H; simpl.
  - now rewrite Nat.add_0_r.
  - rewrite (H v (or_introl eq_refl)). simpl.
    rewrite IH by (intros w Hw; apply H; now right).
    do 2 f_equal. lia.
Qed.

Lemma count_types_all_tom (R : Runtime) (vals : list value) :
  vals <> [] ->
  (forall v, In v vals -> kind_of R v = Tom) ->
  count_types R vals = [(Tom, List.length vals)].
Proof.
  intros Hne H. destruct vals as [|v vals]; [contradiction|].
  unfold count_types. simpl. rewrite (H v (or_introl eq_refl)). simpl.
  rewrite fold_all_tom by (intros w Hw; apply H; now right).
  reflexivity.
Qed.

(** X11: within the cap, a column that has rows, all of them missing,
    gives the summary "Tom (100%)", [EXAMPLE_COUNT] markers and the note
    of a variable column; [EXAMPLE_COUNT] values are drawn all the same
    and thrown away. *)
Theorem all_missing_column_result
    (R : Runtime) (s : Series) (col_name : string) (r : rng R) :
  values s <> [] ->
  List.length (values s) <= SAMPLE_SIZE ->
  (forall v, In v (values s) -> Pandas.isna v = true) ->
  analyze_column R s col_name r =
    (("Tom (100%)", repeat marker EXAMPLE_COUNT, variable_note),
     snd (repeat_gen EXAMPLE_COUNT (generate_fake_data R (Pandas.dropna s) col_name) r)).
Proof.
  intros Hne Hcap Hall.
  assert (Hpos : 0 < List.length (values s))
    by (destruct (values s); [contradiction | simpl; lia]).
  assert (Htom : forall v, In v (values s) -> kind_of R v = Tom)
    by (intros v Hv; apply missing_is_tom; auto).
  assert (Hcat : is_categorical s = false) by now apply all_missing_not_categorical.
  assert (Hrows : rows_of_kind R Tom (values s) = List.length (values s)).
  { rewrite <- count_types_get, count_types_all_tom by assumption.
    simpl. reflexivity. }
  rewrite analyze_column_rows by assumption. cbv zeta.
  rewrite base_examples_variable by assumption. cbn [fst snd].
  rewrite Hrows, empty_slots_all by assumption.
  rewrite skipn_all2 by (rewrite length_map, repeat_gen_length; constructor).
  rewrite count_types_all_tom by assumption.
  unfold summary_of. cbn [map fst snd String.concat label].
  change (PyFloat.format_percent
            (PyFloat.truediv (Z.of_nat (List.length (values s)))
                             (Z.of_nat (List.length (values s)))))
    with (PyStr.of_Z (printed_percent (List.length (values s)) (List.length (values s)))
          ++ "%").
  rewrite printed_percent_all by assumption. reflexivity.
Qed.

Lemma all_missing_column_result_witness :
  values all_missing <> [] /\
  List.length (values all_missing) <= SAMPLE_SIZE /\
  fst (analyze_column counting_runtime all_missing "Belopp" 0)
    = ("Tom (100%)", repeat marker EXAMPLE_COUNT, variable_note) /\
  snd (analyze_column counting_runtime all_missing "Belopp" 0) = 5.
Proof.
  assert (Hne : values all_missing <> []) by discriminate.
  assert (Hcap : List.length (values all_missing) <= SAMPLE_SIZE) by (vm_compute; lia).
  assert (Hall : forall v, In v (values all_missing) -> Pandas.isna v = true).
  { intros v [<-|[<-|[<-|[]]]]; reflexivity. }
  repeat (split; [assumption|]).
  rewrite (all_missing_column_result counting_runtime all_missing "Belopp" 0 Hne Hcap Hall).
  split; reflexivity.
Defined.

(* ----------------------------------------------------------------- *)
(** *** The threshold *)

Lemma unique_from_distinct_texts (l : list string) (seen : list value) :
  NoDup l ->
  (forall x, In x l -> ~ In (VStr x) seen) ->
  Pandas.unique_from seen (map VStr l) = map VStr l.
Proof.
  revert seen. induction l as [|a l IH]; intros seen Hnd Hseen; [reflexivity|].
  inversion Hnd as [|? ? Hnin Hnd']; subst. simpl.
  destruct (existsb (Pandas.py_eqb (VStr a)) seen) eqn:E.
  - exfalso. apply existsb_exists in E. destruct E as [u [Hu Heq]].
    destruct u; simpl in Heq; try discriminate.
    apply String.eqb_eq in Heq. subst. apply (Hseen s (or_introl eq_refl) Hu).
  - f_equal. apply IH; [assumption|].
    intros x Hx [Heq|Hin].
    + inversion Heq; subst. contradiction.
    + apply (Hseen x (or_intror Hx) Hin).
Qed.

Lemma dropna_texts (l : list string) :
  filter (fun v => negb (Pandas.isna v)) (map VStr l) = map VStr l.
Proof. induction l as [|a l IH]; simpl; [reflexivity | now rewrite IH]. Qed.

(** X12: a column of texts that are all different shows them all as
    distinct values, and it is categorical exactly when it holds between 1
    and [CATEGORICAL_THRESHOLD] of them: 15 different texts are
    categorical, 16 are variable. *)
Theorem distinct_texts_threshold (l : list string) :
  NoDup l ->
  unique_values (mkSeries Object (map VStr l)) = map VStr l /\
  (is_categorical (mkSeries Object (map VStr l)) = true <->
   1 <= List.length l <= CATEGORICAL_THRESHOLD).
Proof.
  intro Hnd.
  assert (Hu : unique_values (mkSeries Object (map VStr l)) = map VStr l).
  { unfold unique_values, Pandas.unique, Pandas.dropna. simpl.
    rewrite dropna_texts. apply unique_from_distinct_texts; [assumption|].
    intros x _ []. }
  split; [exact Hu|].
  rewrite is_categorical_iff, Hu, length_map. simpl. intuition lia.
Qed.

Lemma distinct_texts_threshold_witness :
  NoDup ["a"; "b"] /\
  unique_values (mkSeries Object (map VStr ["a"; "b"])) = [VStr "a"; VStr "b"] /\
  is_categorical (mkSeries Object (map VStr ["a"; "b"])) = true.
Proof.
  assert (Hnd : NoDup ["a"; "b"]).
  { constructor; [simpl; intros [H|[]]; discriminate|].
    constructor; [intros []|constructor]. }
  split; [exact Hnd|].
  destruct (distinct_texts_threshold ["a"; "b"] Hnd) as [Hu [_ Hc]].
  split; [exact Hu|]. apply Hc. vm_compute. split; lia.
Defined.

(* ================================================================= *)
(** ** Which texts are empty *)

Lemma strip_with_blank (s : string) (fuel : nat) :
  String.length s <= fuel -> ascii_blank s ->
  PyStr.strip_with PyStr.drop_space fuel s = "".
Proof.
  revert fuel. induction s as [|a s IH]; intros fuel Hlen Hb.
  - destruct fuel; reflexivity.
  - destruct fuel as [|fuel]; [simpl in Hlen; lia|].
    simpl. rewrite (Hb a (or_introl eq_refl)).
    apply IH; [simpl in Hlen; lia|].
    intros c Hc. apply Hb. now right.
Qed.

(** X13: a text made of one-byte white space only (space, tab, line
    break and the like), the empty text included, strips to the empty text
    and is counted as an empty row. *)
Theorem blank_ascii_text_is_empty (R : Runtime) (s : string) :
  ascii_blank s ->
  PyStr.strip s = "" /\ kind_of R (VStr s) = Tom.
Proof.
  intro Hb.
  assert (Hs : PyStr.strip s = "").
  { unfold PyStr.strip, PyStr.lstrip.
    rewrite strip_with_blank by (auto; lia). reflexivity. }
  split; [exact Hs|].
  unfold kind_of, is_empty. simpl. rewrite Hs. reflexivity.
Qed.

Lemma blank_ascii_text_is_empty_witness :
  ascii_blank (String " " (String (ascii_of_nat 9) newline)) /\
  kind_of counting_runtime (VStr (String " " (String (ascii_of_nat 9) newline))) = Tom.
Proof.
  assert (Hb : ascii_blank (String " " (String (ascii_of_nat 9) newline))).
  { intros c [<-|[<-|[<-|[]]]]; reflexivity. }
  split; [exact Hb|].
  exact (proj2 (blank_ascii_text_is_empty counting_runtime _ Hb)).
Defined.

Lemma visible_not_space1 (c : ascii) :
  visible c -> PyStr.space1 (nat_of_ascii c) = false.
Proof.
  unfold visible, PyStr.space1. intro H.
  destruct (9 <=? nat_of_ascii c) eqn:E1, (nat_of_ascii c <=? 13) eqn:E2,
           (28 <=? nat_of_ascii c) eqn:E3, (nat_of_ascii c <=? 32) eqn:E4;
    try reflexivity;
    repeat match goal with
           | H : (_ <=? _) = true |- _ => apply Nat.leb_le in H
           | H : (_ <=? _) = false |- _ => apply Nat.leb_gt in H
           end; lia.
Qed.

Lemma space2_high (a b : nat) : PyStr.space2 a b = true -> 127 <= a /\ 127 <= b.
Proof.
  unfold PyStr.space2.
  rewrite andb_true_iff, orb_true_iff, !Nat.eqb_eq. lia.
Qed.

Lemma space3_high (a b c : nat) :
  PyStr.space3 a b c = true -> 127 <= a /\ 127 <= b /\ 127 <= c.
Proof.
  unfold PyStr.space3.
  rewrite !orb_true_iff, !andb_true_iff, !orb_true_iff, !andb_true_iff,
          !Nat.eqb_eq, !Nat.leb_le.
  lia.
Qed.

Lemma drop_space_keeps (c : ascii) (s t : string) :
  visible c -> PyStr.drop_space s = Some t ->
  In c (list_ascii_of_string s) -> In c (list_ascii_of_string t).
Proof.
  intros Hv Hd Hin. pose proof (visible_not_space1 c Hv) as Hc.
  unfold visible in Hv.
  destruct s as [|a1 s1]; [discriminate|]. simpl in Hd.
  destruct (PyStr.space1 (nat_of_ascii a1)) eqn:E1.
  { inversion Hd; subst. destruct Hin as [->|Hin]; [congruence | assumption]. }
  destruct s1 as [|a2 s2]; [discriminate|].
  destruct (PyStr.space2 (nat_of_ascii a1) (nat_of_ascii a2)) eqn:E2.
  { inversion Hd; subst. apply space2_high in E2.
    destruct Hin as [->|[->|Hin]]; [lia | lia | assumption]. }
  destruct s2 as [|a3 s3]; [discriminate|].
  destruct (PyStr.space3 (nat_of_ascii a1) (nat_of_ascii a2) (nat_of_ascii a3)) eqn:E3;
    [|discriminate].
  inversion Hd; subst. apply space3_high in E3.
  destruct Hin as [->|[->|[->|Hin]]]; [lia | lia | lia | assumption].
Qed.

Lemma drop_space_rev_keeps (c : ascii) (s t : string) :
  visible c -> PyStr.drop_space_rev s = Some t ->
  In c (list_ascii_of_string s) -> In c (list_ascii_of_string t).
Proof.
  intros Hv Hd Hin. pose proof (visible_not_space1 c Hv) as Hc.
  unfold visible in Hv.
  destruct s as [|a1 s1]; [discriminate|]. simpl in Hd.
  destruct (PyStr.space1 (nat_of_ascii a1)) eqn:E1.
  { inversion Hd; subst. destruct Hin as [->|Hin]; [congruence | assumption]. }
  destruct s1 as [|a2 s2]; [discriminate|].
  destruct (PyStr.space2 (nat_of_ascii a2) (nat_of_ascii a1)) eqn:E2.
  { inversion Hd; subst. apply space2_high in E2.
    destruct Hin as [->|[->|Hin]]; [lia | lia | assumption]. }
  destruct s2 as [|a3 s3]; [discriminate|].
  destruct (PyStr.space3 (nat_of_ascii a3) (nat_of_ascii a2) (nat_of_ascii a1)) eqn:E3;
    [|discriminate].
  inversion Hd; subst. apply space3_high in E3.
  destruct Hin as [->|[->|[->|Hin]]]; [lia | lia | lia | assumption].
Qed.

Lemma strip_with_keeps (drop : string -> option string) (c : ascii) :
  (forall s t, drop s = Some t ->
               In c (list_ascii_of_string s) -> In c (list_ascii_of_string t)) ->
  forall fuel s, In c (list_ascii_of_string s) ->
                 In c (list_ascii_of_string (PyStr.strip_with drop fuel s)).
Proof.
  intros Hdrop fuel. induction fuel as [|fuel IH]; intros s Hin; simpl; [assumption|].
  destruct (drop s) as [t|] eqn:E; [|assumption].
  apply IH. eapply Hdrop; eassumption.
Qed.

Lemma list_ascii_append (s t : string) :
  list_ascii_of_string (s ++ t) = (list_ascii_of_string s ++ list_ascii_of_string t)%list.
Proof. induction s as [|a s IH]; simpl; [reflexivity | now rewrite IH]. Qed.

Lemma In_rev_string (c : ascii) (s : string) :
  In c (list_ascii_of_string (PyStr.rev s)) <-> In c (list_ascii_of_string s).
Proof.
  induction s as [|a s IH]; simpl; [tauto|].
  rewrite list_ascii_append, in_app_iff, IH. simpl. tauto.
Qed.

(** X14: a text that holds a visible ASCII character (a letter, a
    digit, a punctuation mark) does not strip to the empty text, whatever
    surrounds the character, and is counted as a row of kind Text. *)
Theorem visible_text_is_text (R : Runtime) (s : string) (c : ascii) :
  visible c ->
  In c (list_ascii_of_string s) ->
  PyStr.strip s <> "" /\ kind_of R (VStr s) = Text.
Proof.
  intros Hv Hin.
  assert (Hkeep : In c (list_ascii_of_string (PyStr.strip s))).
  { unfold PyStr.strip, PyStr.rstrip, PyStr.lstrip.
    apply In_rev_string.
    apply strip_with_keeps; [intros; eapply drop_space_rev_keeps; eassumption|].
    apply In_rev_string.
    apply strip_with_keeps; [intros; eapply drop_space_keeps; eassumption|].
    assumption. }
  assert (Hs : PyStr.strip s <> "").
  { intro He. rewrite He in Hkeep. contradiction. }
  split; [exact Hs|].
  unfold kind_of, is_empty. simpl.
  destruct (String.eqb (PyStr.strip s) "") eqn:E; [|reflexivity].
  apply String.eqb_eq in E. contradiction.
Qed.

Lemma visible_text_is_text_witness :
  visible "x" /\
  In "x"%char (list_ascii_of_string "  x  ") /\
  kind_of counting_runtime (VStr "  x  ") = Text.
Proof.
  assert (Hv : visible "x") by (unfold visible; change (nat_of_ascii "x") with 120; lia).
  assert (Hin : In "x"%char (list_ascii_of_string "  x  ")) by (simpl; tauto).
  repeat (split; [assumption|]).
  exact (proj2 (visible_text_is_text counting_runtime "  x  " "x" Hv Hin)).
Defined.

(* ================================================================= *)
(** ** The samples main analyses *)

Lemma note_is_not_sentinel (R : Runtime) (s : Series) (col_name : string) (r : rng R) :
  values s <> [] ->
  note_part (fst (analyze_column R s col_name r)) <> "Ingen data".
Proof.
  intro Hne. rewrite analysis_note_rows by assumption.
  destruct (is_categorical s); [unfold categorical_note; simpl | unfold variable_note];
    discriminate.
Qed.

Lemma examples_length_bounds (R : Runtime) (s : Series) (col_name : string) (r : rng R) :
  values s <> [] ->
  List.length (values s) <= SAMPLE_SIZE ->
  1 <= List.length (examples_part (fst (analyze_column R s col_name r))) <= EXAMPLE_COUNT /\
  (is_categorical s = false ->
   List.length (examples_part (fst (analyze_column R s col_name r))) = EXAMPLE_COUNT).
Proof.
  intros Hne Hcap.
  assert (Hpos : 0 < List.length (values s))
    by (destruct (values s); [contradiction | simpl; lia]).
  pose proof (empty_slots_le (rows_of_kind R Tom (values s)) (List.length (values s))
                Hpos Hcap (rows_of_kind_le R Tom (values s))) as Hk.
  rewrite analyze_column_rows by assumption. cbv zeta.
  unfold examples_part. cbn [fst snd].
  rewrite length_app, length_skipn, repeat_length.
  destruct (is_categorical s) eqn:Hcat.
  - rewrite base_examples_categorical by exact Hcat. cbn [fst].
    rewrite length_firstn.
    apply is_categorical_iff in Hcat. destruct Hcat as (Hu & _ & _).
    unfold EXAMPLE_COUNT in *. split; [lia | discriminate].
  - rewrite base_examples_variable by exact Hcat. cbn [fst].
    rewrite length_map, repeat_gen_length.
    unfold EXAMPLE_COUNT in *. split; [lia | intros _; lia].
Qed.

Lemma head_rows (n : nat) (s : Series) :
  List.length (values (Frame.head n s)) = Nat.min n (List.length (values s)).
Proof. unfold Frame.head. simpl. apply length_firstn. Qed.

Lemma head_has_rows (s : Series) :
  values s <> [] -> values (Frame.head SAMPLE_SIZE s) <> [].
Proof. destruct s as [d [|v vals]]; [contradiction | discriminate]. Qed.

(** X15: for a column with at least one row, however long, the sample
    that [main] passes on, its first [SAMPLE_SIZE] rows, has between 1 and
    [SAMPLE_SIZE] rows; its result is never the "Ingen data" note of an
    empty column, its example list has between 1 and [EXAMPLE_COUNT]
    entries, exactly [EXAMPLE_COUNT] when the sample is variable, and the
    number of markers is the exact floor of the share of empty rows of the
    sample times [EXAMPLE_COUNT]. *)
Theorem capped_sample_result (R : Runtime) (s : Series) (col_name : string) (r : rng R) :
  values s <> [] ->
  let sample := Frame.head SAMPLE_SIZE s in
  let res := fst (analyze_column R sample col_name r) in
  let n := List.length (values sample) in
  let t := rows_of_kind R Tom (values sample) in
  n = Nat.min SAMPLE_SIZE (List.length (values s)) /\
  1 <= n <= SAMPLE_SIZE /\
  note_part res <> "Ingen data" /\
  1 <= List.length (examples_part res) <= EXAMPLE_COUNT /\
  (is_categorical sample = false -> List.length (examples_part res) = EXAMPLE_COUNT) /\
  examples_part res =
    (skipn ((t * EXAMPLE_COUNT) / n) (fst (fst (base_examples R sample col_name r)))
     ++ repeat marker ((t * EXAMPLE_COUNT) / n))%list.
Proof.
  intros Hne sample res n t.
  pose proof (head_has_rows s Hne) as Hne'. fold sample in Hne'.
  assert (Hn : n = Nat.min SAMPLE_SIZE (List.length (values s))) by apply head_rows.
  assert (Hpos : 0 < n) by (unfold n; destruct (values sample); [contradiction | simpl; lia]).
  assert (Hcap : n <= SAMPLE_SIZE) by lia.
  split; [exact Hn|]. split; [lia|].
  split; [now apply note_is_not_sentinel|].
  destruct (examples_length_bounds R sample col_name r Hne' Hcap) as [Hb Hv].
  split; [exact Hb|]. split; [exact Hv|].
  unfold res. rewrite analyze_column_rows by assumption. cbv zeta.
  unfold examples_part. cbn [fst snd]. fold n t.
  rewrite (empty_slots_floor t n Hpos Hcap (rows_of_kind_le R Tom (values sample))).
  reflexivity.
Qed.

Lemma capped_sample_result_witness :
  values (mkSeries Int64 (repeat (VInt 7) 60)) <> [] /\
  List.length (values (Frame.head SAMPLE_SIZE (mkSeries Int64 (repeat (VInt 7) 60)))) = 50 /\
  List.length
    (examples_part
       (fst (analyze_column counting_runtime
               (Frame.head SAMPLE_SIZE (mkSeries Int64 (repeat (VInt 7) 60))) "Belopp" 0)))
    = EXAMPLE_COUNT.
Proof.
  assert (Hne : values (mkSeries Int64 (repeat (VInt 7) 60)) <> []) by discriminate.
  split; [exact Hne|].
  destruct (capped_sample_result counting_runtime (mkSeries Int64 (repeat (VInt 7) 60))
              "Belopp" 0 Hne) as (Hn & _ & _ & _ & Hv & _).
  split; [rewrite Hn; reflexivity|].
  apply Hv. reflexivity.
Defined.


(* ================================================================= *)
(** ** get_format_info *)

(** X17: the text of [get_format_info] is never empty; it is "N/A"
    exactly when there is no cell, and for a cell it is "Standard" exactly
    when the cell is not bold, not wrapped and has no number format to show
    (none, the empty one or "General"). *)
Theorem format_info_cases (cell : option Openpyxl.Cell) :
  get_format_info cell <> "" /\
  (get_format_info cell = "N/A" <-> cell = None) /\
  (forall c, cell = Some c ->
             (get_format_info cell = "Standard" <->
              is_bold c = false /\ is_wrapped c = false /\ shown_format c = None)).
Proof.
  destruct cell as [c|].
  - unfold get_format_info.
    destruct (is_bold c) eqn:Eb, (is_wrapped c) eqn:Ew, (shown_format c) as [nf|] eqn:Ef;
      simpl;
      (split; [discriminate|]);
      (split; [split; discriminate|]);
      intros c' Hc; inversion Hc; subst c';
      rewrite Eb, Ew, Ef;
      (split; [try discriminate; auto | intros (H1 & H2 & H3); try discriminate; auto]).
  - simpl. split; [discriminate|]. split; [tauto|]. intros c Hc. discriminate.
Qed.

Lemma format_info_cases_witness :
  get_format_info (Some plain_cell) = "Standard" /\
  is_bold plain_cell = false /\ is_wrapped plain_cell = false /\
  shown_format plain_cell = None.
Proof.
  assert (H : get_format_info (Some plain_cell) = "Standard") by reflexivity.
  split; [exact H|].
  destruct (format_info_cases (Some plain_cell)) as (_ & _ & Hs).
  apply (Hs plain_cell eq_refl). exact H.
Defined.

Lemma append_char_inj (q : ascii) (a b : string) :
  a ++ String q "" = b ++ String q "" -> a = b.
Proof.
  revert b. induction a as [|x a IH]; intros [|y b] H; simpl in H.
  - reflexivity.
  - inversion H as [[Hq Hb]]. destruct b; discriminate.
  - inversion H as [[Hq Ha]]. destruct a; discriminate.
  - inversion H. f_equal. now apply IH.
Qed.

(** X18: the text of [get_format_info] tells the three things it
    reports apart: two cells with the same text agree on being bold, on
    being wrapped and on the number format shown. *)
Theorem format_info_determines_flags (c1 c2 : Openpyxl.Cell) :
  get_format_info (Some c1) = get_format_info (Some c2) ->
  is_bold c1 = is_bold c2 /\
  is_wrapped c1 = is_wrapped c2 /\
  shown_format c1 = shown_format c2.
Proof.
  unfold get_format_info.
  destruct (is_bold c1), (is_wrapped c1), (shown_format c1) as [n1|],
           (is_bold c2), (is_wrapped c2), (shown_format c2) as [n2|];
    simpl; intro H; try discriminate H;
    try (repeat split; reflexivity);
    inversion H as [H'];
    apply append_char_inj in H'; subst; repeat split; reflexivity.
Qed.

Lemma format_info_determines_flags_witness :
  get_format_info (Some bold_percent_cell)
    = get_format_info
        (Some (Openpyxl.mkCell (Some (Openpyxl.mkFont (Some true))) None (Some "0.00%"))) /\
  shown_format bold_percent_cell = Some "0.00%".
Proof.
  assert (H : get_format_info (Some bold_percent_cell)
              = get_format_info
                  (Some (Openpyxl.mkCell (Some (Openpyxl.mkFont (Some true))) None
                                         (Some "0.00%")))) by reflexivity.
  split; [exact H|].
  destruct (format_info_determines_flags _ _ H) as (_ & _ & Hf).
  rewrite Hf. reflexivity.
Defined.

Lemma unique_values_distinct_and_complete_witness :
  unique_values (mkSeries Object [VInt 1; VBool true; VStr "a"; VFloat 1; VNone])
    = [VInt 1; VStr "a"] /\
  exists u, In u (unique_values
                    (mkSeries Object [VInt 1; VBool true; VStr "a"; VFloat 1; VNone])) /\
            Pandas.py_eqb (VBool true) u = true.
Proof.
  split; [reflexivity|].
  destruct (unique_values_distinct_and_complete
              (mkSeries Object [VInt 1; VBool true; VStr "a"; VFloat 1; VNone]))
    as (_ & _ & H & _).
  apply H; [simpl; tauto | reflexivity].
Defined.

(* ================================================================= *)
(** ** The summary, entry by entry *)

Lemma counter_by_keys (c : Counter) :
  NoDup (map fst c) -> c = map (fun k => (k, get k c)) (map fst c).
Proof.
  induction c as [|[k0 n] c IH]; intro Hnd; [reflexivity|].
  inversion Hnd as [|? ? Hnin Hnd']; subst.
  cbn [map fst get]. rewrite Kind_eqb_refl. f_equal.
  rewrite (IH Hnd') at 1. apply map_ext_in. intros k Hk.
  destruct (Kind_eqb k k0) eqn:E; [|reflexivity].
  apply Kind_eqb_eq in E. subst. contradiction.
Qed.

Lemma count_types_by_kinds (R : Runtime) (vals : list value) :
  count_types R vals =
    map (fun k => (k, rows_of_kind R k vals)) (first_kinds [] (map (kind_of R) vals)).
Proof.
  pose proof (fold_keys R vals []) as Hk. cbn [map app] in Hk.
  fold (count_types R vals) in Hk.
  rewrite (counter_by_keys (count_types R vals) (count_types_NoDup R vals)) at 1.
  rewrite Hk. apply map_ext. intro k. now rewrite count_types_get.
Qed.

Lemma first_kinds_occur (R : Runtime) (vals : list value) :
  NoDup (first_kinds [] (map (kind_of R) vals)) /\
  forall k, In k (first_kinds [] (map (kind_of R) vals)) <-> 0 < rows_of_kind R k vals.
Proof.
  pose proof (fold_keys R vals []) as Hk. cbn [map app] in Hk.
  fold (count_types R vals) in Hk. rewrite <- Hk.
  split; [apply count_types_NoDup|].
  intro k. split.
  - intro H. apply in_map_iff in H. destruct H as [[k' m] [Hk' Hin]].
    simpl in Hk'. subst k'. apply count_types_entry in Hin.
    destruct Hin as [Hm Hpos]. now rewrite <- Hm.
  - intro H. apply get_positive_key. now rewrite count_types_get.
Qed.

(** The summary written out from the sample: one entry per kind that
    occurs, in order of first occurrence, each with the share of its rows. *)
Lemma summary_by_kinds (R : Runtime) (s : Series) (col_name : string) (r : rng R) :
  values s <> [] ->
  summary_part (fst (analyze_column R s col_name r)) =
    String.concat ", "
      (map (fun k =>
              label k ++ " (" ++
              PyFloat.format_percent
                (PyFloat.truediv (Z.of_nat (rows_of_kind R k (values s)))
                                 (Z.of_nat (List.length (values s))))
              ++ ")")
           (first_kinds [] (map (kind_of R) (values s)))).
Proof.
  intro Hne. rewrite analyze_column_rows by assumption. cbv zeta.
  unfold summary_part. cbn [fst]. unfold summary_of.
  rewrite count_types_by_kinds, map_map. reflexivity.
Qed.

(** C8: on a sample with at least one row, every row falls in exactly
    one of the kinds Tom (empty), Tal (numeric), Datum (temporal) and Text,
    tested in that order; the counter holds each kind that occurs once,
    with its number of rows, and no kind that does not occur; the counts
    add up to the number of rows, so the exact fractions add up to 1; and
    the summary returned is the entries "kind (share)" joined by ", ", one
    for each kind that has a row and none for a kind that has no row, in
    order of first occurrence, the share being that of the rows of the
    kind. *)
Theorem type_counts_partition (R : Runtime) (s : Series) (col_name : string) (r : rng R) :
  values s <> [] ->
  let vals := values s in
  let n := List.length vals in
  let c := count_types R vals in
  let kinds := first_kinds [] (map (kind_of R) vals) in
  (forall v, kind_of R v = Tom <-> is_empty R v = true) /\
  (forall v, kind_of R v = Tal <-> is_empty R v = false /\ is_number_instance v = true) /\
  (forall v, kind_of R v = Datum <->
             is_empty R v = false /\ is_number_instance v = false /\
             is_datetime_instance v = true) /\
  (forall v, kind_of R v = Text <->
             is_empty R v = false /\ is_number_instance v = false /\
             is_datetime_instance v = false) /\
  rows_of_kind R Tom vals + rows_of_kind R Tal vals +
    rows_of_kind R Datum vals + rows_of_kind R Text vals = n /\
  total c = n /\
  NoDup (map fst c) /\
  (forall k, In k (map fst c) <-> 0 < rows_of_kind R k vals) /\
  (forall k m, In (k, m) c -> m = rows_of_kind R k vals /\ 0 < m) /\
  (fraction_sum c n == 1)%Q /\
  c = map (fun k => (k, rows_of_kind R k vals)) kinds /\
  NoDup kinds /\
  (forall k, In k kinds <-> 0 < rows_of_kind R k vals) /\
  summary_part (fst (analyze_column R s col_name r)) =
    String.concat ", "
      (map (fun k =>
              label k ++ " (" ++
              PyFloat.format_percent
                (PyFloat.truediv (Z.of_nat (rows_of_kind R k vals)) (Z.of_nat n))
              ++ ")")
           kinds).
Proof.
  intros Hne vals n c kinds.
  split; [intro v; kind_cases R v|].
  split; [intro v; kind_cases R v|].
  split; [intro v; kind_cases R v|].
  split; [intro v; kind_cases R v|].
  split; [apply rows_of_kind_partition|].
  split; [apply count_types_total|].
  split; [apply count_types_NoDup|].
  split.
  { intro k. split.
    - intro H. apply in_map_iff in H. destruct H as [[k' m] [Hk Hin]].
      simpl in Hk. subst k'. apply count_types_entry in Hin.
      destruct Hin as [Hm Hpos]. now rewrite <- Hm.
    - intro H. apply get_positive_key. unfold c. now rewrite count_types_get. }
  split; [intros k m; apply (count_types_entry R vals k m)|].
  split.
  { rewrite fraction_sum_total. unfold c. rewrite count_types_total.
    fold n. apply Qmult_inv_r.
    assert (Hn : 0 < n) by (unfold n, vals; destruct (values s); [contradiction | simpl; lia]).
    intro Hq. unfold Qeq in Hq. simpl in Hq. lia. }
  split; [apply count_types_by_kinds|].
  split; [apply first_kinds_occur|].
  split; [apply first_kinds_occur|].
  now apply summary_by_kinds.
Qed.

Lemma type_counts_partition_witness :
  values five_kinds <> [] /\
  count_types counting_runtime (values five_kinds) = [(Tal, 2); (Text, 1); (Tom, 1); (Datum, 1)] /\
  total (count_types counting_runtime (values five_kinds)) = 5 /\
  summary_part (fst (analyze_column counting_runtime five_kinds "Blandat" 0))
    = "Tal (40%), Text (20%), Tom (20%), Datum (20%)".
Proof.
  assert (Hne : values five_kinds <> []) by discriminate.
  split; [exact Hne|].
  destruct (type_counts_partition counting_runtime five_kinds "Blandat" 0 Hne)
    as (_ & _ & _ & _ & _ & Htot & _ & _ & _ & _ & Hc & _ & _ & Hsum).
  split; [rewrite Hc; reflexivity|].
  split; [exact Htot|]. rewrite Hsum. reflexivity.
Defined.

(* ================================================================= *)
(** ** Blank text in the result *)






(* ================================================================= *)
(** ** The columns of a sheet *)

Lemma repeat_genE_lift (R : Runtime) (A : Type) (g : Gen R A) (n : nat) (r : rng R) :
  repeat_genE n (lift g) r = (inr (fst (repeat_gen n g r)), snd (repeat_gen n g r)).
Proof.
  revert r. induction n as [|n IH]; intro r; simpl; [reflexivity|].
  unfold bindE, bind, lift at 1. destruct (g r) as [a r1].
  rewrite IH. destruct (repeat_gen n g r1) as [rest r2]. reflexivity.
Qed.

(** With a text as label the call is [analyze_column] itself. *)
Lemma analyze_column_label_text
    (R : Runtime) (s : Series) (col_name : string) (r : rng R) :
  analyze_column_label R s (VStr col_name) r =
    (inr (fst (analyze_column R s col_name r)), snd (analyze_column R s col_name r)).
Proof.
  unfold analyze_column_label, analyze_column.
  destruct (List.length (values s) =? 0); [reflexivity|].
  unfold base_examples.
  destruct (is_categorical s); [reflexivity|].
  cbn [generate_fake_data_label]. unfold fmap. unfold bindE, bind, ret, retE.
  rewrite repeat_genE_lift.
  destruct (repeat_gen EXAMPLE_COUNT (generate_fake_data R (Pandas.dropna s) col_name) r)
    as [ex r']. reflexivity.
Qed.

(** With another label the call raises as soon as a value is to be
    generated, and is [analyze_column] otherwise, where the name is not
    looked at. *)
Lemma analyze_column_label_other
    (R : Runtime) (s : Series) (label : value) (col_name : string) (r : rng R) :
  is_text label = false ->
  analyze_column_label R s label r =
    if (List.length (values s) =? 0) || is_categorical s
    then (inr (fst (analyze_column R s col_name r)), r)
    else (inl AttributeError, r).
Proof.
  intro Hl. unfold analyze_column_label, analyze_column.
  destruct (List.length (values s) =? 0); [reflexivity|].
  unfold base_examples. cbn [orb].
  destruct (is_categorical s); [reflexivity|].
  destruct label; try discriminate Hl; reflexivity.
Qed.

Lemma raised_unique (e : raised) : e = AttributeError.
Proof. now destruct e. Qed.

Lemma for_each_all (R : Runtime) (A B : Type) (f : A -> GenE R B) (P : B -> Prop)
    (l : list A) :
  (forall a, In a l -> forall r, exists b, fst (f a r) = inr b /\ P b) ->
  forall r, exists bs, fst (for_each f l r) = inr bs /\
                       List.length bs = List.length l /\ Forall P bs.
Proof.
  induction l as [|a l IH]; intros H r; simpl.
  - exists []. repeat split. constructor.
  - unfold bindE. destruct (H a (or_introl eq_refl) r) as (b & Hb & HP).
    destruct (f a r) as [[e|b'] r1]; simpl in Hb; [discriminate|].
    inversion Hb; subst b'.
    destruct (IH (fun x Hx => H x (or_intror Hx)) r1) as (bs & Hbs & Hlen & Hall).
    destruct (for_each f l r1) as [[e|bs'] r2]; simpl in Hbs; [discriminate|].
    inversion Hbs; subst bs'.
    exists (b :: bs). simpl. repeat split; [now rewrite Hlen | now constructor].
Qed.

Lemma for_each_raises (R : Runtime) (A B : Type) (f : A -> GenE R B) (l : list A) (x : A) :
  In x l ->
  (forall r, fst (f x r) = inl AttributeError) ->
  forall r, fst (for_each f l r) = inl AttributeError.
Proof.
  induction l as [|a l IH]; intros Hin Hx r; [contradiction|].
  simpl. unfold bindE.
  destruct (f a r) as [[e|b] r1] eqn:E.
  - simpl. f_equal. apply raised_unique.
  - destruct Hin as [->|Hin].
    + specialize (Hx r). rewrite E in Hx. discriminate.
    + specialize (IH Hin Hx r1).
      destruct (for_each f l r1) as [[e|bs] r2]; simpl in *; [assumption | discriminate].
Qed.

(** X16: for a sheet whose columns all have one value per row, [main]
    analyses nothing and draws nothing when the frame is empty (no row or
    no column). Otherwise, when every label is a text or heads a column
    whose sample is categorical, it gets one result per column, none of
    which is the "Ingen data" result of an empty column, each with between
    1 and [EXAMPLE_COUNT] examples; and when some label that is not a text
    (a number or a date in the header) heads a column whose sample is not
    categorical, the loop raises AttributeError instead. *)
Theorem main_columns_outcome (R : Runtime) (df : Frame.DataFrame) (r : rng R) :
  Frame.well_formed df ->
  (Frame.empty df = true -> main_columns R df r = (inr None, r)) /\
  (Frame.empty df = false ->
   (forall cs, In cs (Frame.columns df) ->
               is_text (fst cs) = true \/
               is_categorical (Frame.head SAMPLE_SIZE (snd cs)) = true) ->
   exists results,
     fst (main_columns R df r) = inr (Some results) /\
     List.length results = List.length (Frame.columns df) /\
     Forall (fun res =>
               note_part res <> "Ingen data" /\
               1 <= List.length (examples_part res) <= EXAMPLE_COUNT)
            results) /\
  (Frame.empty df = false ->
   (exists cs, In cs (Frame.columns df) /\
               is_text (fst cs) = false /\
               is_categorical (Frame.head SAMPLE_SIZE (snd cs)) = false) ->
   fst (main_columns R df r) = inl AttributeError).
Proof.
  intro Hwf.
  assert (Hrows : Frame.empty df = false ->
                  forall cs, In cs (Frame.columns df) ->
                             values (Frame.head SAMPLE_SIZE (snd cs)) <> [] /\
                             List.length (values (Frame.head SAMPLE_SIZE (snd cs)))
                               <= SAMPLE_SIZE).
  { intros He cs Hin. unfold Frame.empty in He. apply orb_false_iff in He.
    destruct He as [Hn _]. apply Nat.eqb_neq in Hn.
    unfold Frame.well_formed in Hwf. rewrite Forall_forall in Hwf.
    specialize (Hwf _ Hin).
    assert (Hne : values (snd cs) <> []).
    { intro H0. rewrite H0 in Hwf. simpl in Hwf. lia. }
    split; [now apply head_has_rows | rewrite head_rows; lia]. }
  pose (f := fun cs : value * Series =>
               analyze_column_label R (Frame.head SAMPLE_SIZE (snd cs)) (fst cs)).
  split; [|split].
  - intro He. unfold main_columns. now rewrite He.
  - intros He Hlabels. unfold main_columns. rewrite He. fold f.
    pose (P := fun res : string * list value * string =>
                 note_part res <> "Ingen data" /\
                 1 <= List.length (examples_part res) <= EXAMPLE_COUNT).
    destruct (for_each_all R _ _ f P (Frame.columns df)) with (r := r)
      as (results & Hres & Hlen & Hall).
    { intros [label s] Hin r0. unfold f, P. cbn [fst snd].
      destruct (Hrows He _ Hin) as [Hne Hcap]. cbn [snd] in Hne, Hcap.
      assert (HP : forall col_name r1,
                 note_part (fst (analyze_column R (Frame.head SAMPLE_SIZE s) col_name r1))
                   <> "Ingen data" /\
                 1 <= List.length
                        (examples_part
                           (fst (analyze_column R (Frame.head SAMPLE_SIZE s) col_name r1)))
                   <= EXAMPLE_COUNT).
      { intros col_name r1. split; [now apply note_is_not_sentinel|].
        now apply examples_length_bounds. }
      destruct (is_text label) eqn:Et.
      - destruct label; try discriminate Et.
        rewrite analyze_column_label_text. eexists. split; [reflexivity | apply HP].
      - destruct (Hlabels _ Hin) as [Ht|Hc]; cbn [fst snd] in *; [congruence|].
        rewrite (analyze_column_label_other R _ label "" r0 Et), Hc, orb_true_r.
        eexists. split; [reflexivity | apply HP]. }
    exists results. split; [|split; assumption].
    unfold bindE. destruct (for_each f (Frame.columns df) r) as [[e|rs] r1];
      simpl in Hres; [discriminate|].
    inversion Hres. reflexivity.
  - intros He ([label s] & Hin & Ht & Hc). cbn [fst snd] in Ht, Hc.
    unfold main_columns. rewrite He. fold f.
    assert (Hf : fst (for_each f (Frame.columns df) r) = inl AttributeError).
    { apply (for_each_raises R _ _ f (Frame.columns df) (label, s) Hin).
      intro r0. unfold f. cbn [fst snd].
      destruct (Hrows He _ Hin) as [Hne _]. cbn [snd] in Hne.
      rewrite (analyze_column_label_other R _ label "" r0 Ht), Hc.
      destruct (values (Frame.head SAMPLE_SIZE s)); [contradiction | reflexivity]. }
    unfold bindE. destruct (for_each f (Frame.columns df) r) as [[e|rs] r1];
      simpl in Hf; [simpl; f_equal; apply raised_unique | discriminate].
Qed.

Lemma main_columns_outcome_witness :
  Frame.well_formed two_columns /\
  Frame.empty two_columns = false /\
  fst (main_columns counting_runtime two_columns 0) =
    inr (Some [("Text (100%)", [VStr "Stockholm"; VStr "Malmö"; VStr "Göteborg"],
                "Kategorisk (3 unika värden)");
               ("Text (75%), Tom (25%)", [VStr "b"; VStr "c"; VStr " "; marker],
                "Kategorisk (4 unika värden)")]) /\
  Frame.well_formed year_header /\
  Frame.empty year_header = false /\
  fst (main_columns counting_runtime year_header 0) = inl AttributeError.
Proof.
  assert (Hwf : Frame.well_formed two_columns) by (repeat constructor).
  assert (He : Frame.empty two_columns = false) by reflexivity.
  assert (Hwf' : Frame.well_formed year_header) by (repeat constructor).
  assert (He' : Frame.empty year_header = false) by reflexivity.
  split; [exact Hwf|]. split; [exact He|]. split.
  - destruct (main_columns_outcome counting_runtime two_columns 0 Hwf) as (_ & H & _).
    destruct (H He) as (results & Hres & _).
    { intros cs [<-|[<-|[]]]; left; reflexivity. }
    rewrite Hres. vm_compute in Hres. inversion Hres. reflexivity.
  - split; [exact Hwf'|]. split; [exact He'|].
    destruct (main_columns_outcome counting_runtime year_header 0 Hwf') as (_ & _ & H).
    apply (H He').
    exists (VInt 2024, other_ages). split; [simpl; tauto|]. split; reflexivity.
Defined.
